(** * smartsitemapchecker: a shallow embedding of [sitemap.py]

    The script validates a sitemap hierarchy and probes sampled pages for
    soft-404 content.  Every function of the script talks to the outside
    world (HTTP, the XML and HTML parsers, a headless browser, the file
    system, the logger), so the embedding is a state-and-exception monad
    over a trace of effects; the outside world is a record of oracles that
    answer from the history of effects so far. *)

From Stdlib Require Import String Ascii List ZArith Lia Bool DecimalString.
Import ListNotations.
Open Scope string_scope.
Set Warnings "-register-all".

(** ** Python strings (code points 0 to 255) *)

Module PyString.

(** [str.lower] on one character: the letters A to Z, and the capital
    letters of Latin-1 (U+00C0 to U+00DE without the sign U+00D7). *)
Definition lower_ascii (c : ascii) : ascii :=
  let n := nat_of_ascii c in
  if ((65 <=? n)%nat && (n <=? 90)%nat)
     || ((192 <=? n)%nat && (n <=? 222)%nat && negb (n =? 215)%nat)
  then ascii_of_nat (n + 32) else c.

(** [s.lower()] *)
Fixpoint lower (s : string) : string :=
  match s with
  | EmptyString => EmptyString
  | String c t => String (lower_ascii c) (lower t)
  end.

(** [needle in hay] for two strings. *)
Fixpoint contains (needle hay : string) : bool :=
  String.prefix needle hay ||
  match hay with
  | EmptyString => false
  | String _ t => contains needle t
  end.

(** [x in l] for a list of strings. *)
Definition mem (x : string) (l : list string) : bool :=
  existsb (String.eqb x) l.

(** The characters for which [str.isspace] holds: U+0009 to U+000D,
    U+001C to U+0020, U+0085 and U+00A0. *)
Definition is_space (c : ascii) : bool :=
  let n := nat_of_ascii c in
  ((9 <=? n)%nat && (n <=? 13)%nat) || ((28 <=? n)%nat && (n <=? 32)%nat)
  || (n =? 133)%nat || (n =? 160)%nat.

Fixpoint lstrip (s : string) : string :=
  match s with
  | EmptyString => EmptyString
  | String c t => if is_space c then lstrip t else s
  end.

Fixpoint rstrip (s : string) : string :=
  match s with
  | EmptyString => EmptyString
  | String c t =>
      let t' := rstrip t in
      if is_space c && (t' =? "") then EmptyString else String c t'
  end.

(** [s.strip()] *)
Definition strip (s : string) : string := rstrip (lstrip s).

(** [s.replace(a, b)] for one-character [a] and [b]. *)
Fixpoint replace_char (a b : ascii) (s : string) : string :=
  match s with
  | EmptyString => EmptyString
  | String c t => String (if Ascii.eqb c a then b else c) (replace_char a b t)
  end.

(** [os.path.basename] (posixpath): what follows the last slash. *)
Fixpoint basename (p : string) : string :=
  match p with
  | EmptyString => EmptyString
  | String c t =>
      if contains "/" p then basename t else p
  end.

(** [str(n)] for an [int]. *)
Definition str_of_int (n : Z) : string := NilZero.string_of_int (Z.to_int n).

(** [l[:stop]], with Python's reading of a negative [stop]. *)
Definition slice_to {A} (l : list A) (stop : Z) : list A :=
  if (0 <=? stop)%Z then firstn (Z.to_nat stop) l
  else firstn (length l - Z.to_nat (- stop)) l.

End PyString.
Import PyString.

(** A value that is a [str] or [None]: [loc.text] of an empty element is
    [None], and such values flow on as URLs. *)
Definition PyStr := option string.

(** [str(x)] as an f-string prints it. *)
Definition py_str (x : PyStr) : string :=
  match x with Some s => s | None => "None" end.

(** ** ElementTree *)

Module ET.

(** An element: tag in Clark notation ([{uri}local]), [text], children. *)
Inductive Element : Type :=
| Elem (tag : string) (text : PyStr) (children : list Element).

Definition tag (e : Element) : string := let 'Elem t _ _ := e in t.
Definition text (e : Element) : PyStr := let 'Elem _ x _ := e in x.
Definition children (e : Element) : list Element := let 'Elem _ _ c := e in c.

(** [elem.iter()]: the element and all its descendants, in document order. *)
Fixpoint iter (e : Element) : list Element :=
  match e with
  | Elem _ _ cs => e :: flat_map iter cs
  end.

Definition has_tag (t : string) (e : Element) : bool := String.eqb (tag e) t.

(** The step [//t] of ElementPath from one context element:
    [for e in elem.iter(t): if e is not elem: yield e]. *)
Definition descendants (t : string) (e : Element) : list Element :=
  filter (has_tag t) (flat_map iter (children e)).

(** The step [/t]: [for e in elem: if e.tag == t: yield e]. *)
Definition child (t : string) (e : Element) : list Element :=
  filter (has_tag t) (children e).

(** [tree.findall('.//ns:a/ns:b', namespace)] *)
Definition findall_desc_child (a b : string) (tree : Element) : list Element :=
  flat_map (child b) (descendants a tree).

(** Document order, for comparison with [findall_desc_child]: one walk
    over the subtree of [e] that lists every [b] element whose parent is an
    [a] element at the place where the document has it.  [under_a] says
    whether the parent of [e] counts as an [a] element. *)
Fixpoint walk (a b : string) (under_a : bool) (e : Element) : list Element :=
  match e with
  | Elem _ _ cs =>
      (if under_a && has_tag b e then [e] else [])
        ++ flat_map (walk a b (has_tag a e)) cs
  end.

Definition document_order (a b : string) (tree : Element) : list Element :=
  flat_map (walk a b false) (children tree).

(** No [a] element inside the subtree of [e] lies inside another one. *)
Fixpoint unnested (a : string) (e : Element) : bool :=
  match e with
  | Elem _ _ cs =>
      (if has_tag a e
       then forallb (fun c => negb (existsb (has_tag a) (iter c))) cs
       else true)
      && forallb (unnested a) cs
  end.

Definition sitemap_ns : string := "http://www.sitemaps.org/schemas/sitemap/0.9".

(** [ns:local] resolved against [{'ns': sitemap_ns}]. *)
Definition ns (local : string) : string := "{" ++ sitemap_ns ++ "}" ++ local.

End ET.

(** ** Exceptions, effects and the world *)

Inductive Exn : Type :=
| RequestException (msg : string)   (* requests.RequestException and subclasses *)
| ParseError (msg : string)         (* xml.etree.ElementTree.ParseError *)
| OSError (msg : string)
| OtherException (msg : string)     (* any other subclass of Exception *)
| KeyboardInterrupt.                (* a BaseException that is not an Exception *)

(** [isinstance(e, Exception)] *)
Definition is_Exception (e : Exn) : bool :=
  match e with KeyboardInterrupt => false | _ => true end.

(** [str(e)] *)
Definition exn_str (e : Exn) : string :=
  match e with
  | RequestException m | ParseError m | OSError m | OtherException m => m
  | KeyboardInterrupt => ""
  end.

Inductive Res (A : Type) : Type :=
| Ok (a : A)
| Raise (e : Exn).
Arguments Ok {A} a.
Arguments Raise {A} e.

(** The keyword arguments of a [requests.get] call. *)
Record ReqOpts : Type := mkReqOpts {
  timeout : Z;
  allow_redirects : bool;
  user_agent : option string
}.

Record Response : Type := mkResponse {
  status_code : Z;
  content : string;     (* response.content *)
  resp_url : string     (* response.url, the URL after redirects *)
}.

(** One constructor per logging call of the script. *)
Inductive LogMsg : Type :=
| MsgFetchMainFailed (status : Z)
| MsgFound (n : nat)
| MsgFirstFew (urls : list PyStr)
| MsgParseMainError (e : string)
| MsgFetchSubFailed (url : PyStr) (status : Z)
| MsgParseSubError (url : PyStr) (e : string)
| MsgCheckError (url : PyStr) (e : string)
| MsgCheckingMain (url : PyStr)
| MsgMainValid (is_valid : bool) (message : string)
| MsgMainInvalid
| MsgNoSubsitemaps
| MsgCheckingSub (url : PyStr)
| MsgSubValid (is_valid : bool) (message : string)
| MsgDownload (downloaded : bool) (message : string)
| MsgNoUrls (url : PyStr)
| MsgCheckingTop (n : nat) (url : PyStr)
| MsgResult (url : PyStr) (status_message : string).

Inductive Level : Type := INFO | ERROR.

(** The effects of the script, recorded in the order they happen. *)
Inductive Event : Type :=
| EvHttpGet (url : PyStr) (opts : ReqOpts)
| EvFileWrite (name data : string)      (* a completed open-and-write *)
| EvChromeStart                         (* a browser session was created *)
| EvDriverGet (url : PyStr)             (* driver.get: a browser navigation *)
| EvWaitReady
| EvWaitComplete
| EvSleep (seconds : Z)
| EvDriverQuit                          (* driver.quit was called *)
| EvLog (lvl : Level) (msg : LogMsg).

Definition Trace := list Event.

(** BeautifulSoup's view of a page, as far as the script looks at it:
    [soup.title.string] ([None] also when there is no title), and [x.string]
    for every [h1] and every [div] in document order. *)
Record Soup : Type := mkSoup {
  title_string : PyStr;
  h1_strings : list PyStr;
  div_strings : list PyStr
}.

(** The outside world.  An oracle that depends on the world's state takes
    the history of effects so far. *)
Record Env : Type := mkEnv {
  requests_get : Trace -> PyStr -> ReqOpts -> Res Response;
  ET_fromstring : string -> Res ET.Element;
  urlparse_path : PyStr -> string;                    (* urlparse(url).path *)
  file_write : Trace -> string -> string -> Res unit; (* open(name, mode) and f.write(data) *)
  webdriver_Chrome : Trace -> Res unit;
  driver_get : Trace -> PyStr -> Res unit;
  driver_current_url : Trace -> Res string;
  wait_ready : Trace -> Res unit;       (* WebDriverWait(driver, 10).until(EC.any_of(...)) *)
  wait_complete : Trace -> Res unit;    (* WebDriverWait(driver, 5).until(readyState complete) *)
  driver_page_source : Trace -> Res string;
  driver_quit : Trace -> Res unit;
  BeautifulSoup : string -> Soup
}.

(** The state a call runs in: the trace, and the list object [results] of
    [check_url_status], whose appends survive a raise. *)
Record St : Type := mkSt {
  trace : Trace;
  results : list (PyStr * string)
}.

Definition M (A : Type) : Type := St -> Res A * St.

Definition ret {A} (a : A) : M A := fun st => (Ok a, st).

Definition bind {A B} (m : M A) (f : A -> M B) : M B :=
  fun st =>
    match m st with
    | (Ok a, st') => f a st'
    | (Raise e, st') => (Raise e, st')
    end.

Declare Scope py_scope.
Delimit Scope py_scope with py.
Notation "x <- c1 ;; c2" := (bind c1 (fun x => c2))
  (at level 100, c1 at next level, right associativity) : py_scope.
Notation "' pat <- c1 ;; c2" := (bind c1 (fun x => match x with pat => c2 end))
  (at level 100, pat pattern, c1 at next level, right associativity) : py_scope.
Notation "c1 ;; c2" := (bind c1 (fun _ => c2))
  (at level 100, right associativity) : py_scope.
Open Scope py_scope.

Definition emit (ev : Event) (st : St) : St :=
  mkSt (trace st ++ [ev])%list (results st).

(** [try: body except ...: handler]; the handler is chosen by the exception. *)
Definition try_except {A} (body : M A) (handler : Exn -> option (M A)) : M A :=
  fun st =>
    match body st with
    | (Ok a, st') => (Ok a, st')
    | (Raise e, st') =>
        match handler e with
        | Some h => h st'
        | None => (Raise e, st')
        end
    end.

(** [try: body finally: fin] *)
Definition try_finally {A} (body : M A) (fin : M unit) : M A :=
  fun st =>
    let '(r, st') := body st in
    match fin st' with
    | (Ok _, st'') => (r, st'')
    | (Raise e, st'') => (Raise e, st'')
    end.

Definition log (lvl : Level) (msg : LogMsg) : M unit :=
  fun st => (Ok tt, emit (EvLog lvl msg) st).

Definition default_opts : ReqOpts := mkReqOpts 10 true None.

Section Script.

Variable E : Env.

(** *** The calls into the world *)

Definition get (url : PyStr) (opts : ReqOpts) : M Response :=
  fun st => (requests_get E (trace st) url opts, emit (EvHttpGet url opts) st).

Definition fromstring (body : string) : M ET.Element :=
  fun st => (ET_fromstring E body, st).

(** [with open(name, mode) as f: f.write(data)], as one step: the trace
    records the writes that completed.  What an attempt that raises leaves
    on disk is not recorded. *)
Definition write_file (name data : string) : M unit :=
  fun st =>
    match file_write E (trace st) name data with
    | Ok _ => (Ok tt, emit (EvFileWrite name data) st)
    | Raise e => (Raise e, st)
    end.

(** *** validate_xml *)

Definition validate_xml (url : PyStr) : M (bool * string) :=
  try_except
    (response <- get url default_opts ;;
     if negb (status_code response =? 200)%Z
     then ret (false, "HTTP " ++ str_of_int (status_code response) ++ " received")
     else
       (fromstring (content response) ;;
        ret (true, "Valid XML")))
    (fun e =>
       match e with
       | ParseError _ => Some (ret (false, "Invalid XML structure"))
       | RequestException m => Some (ret (false, "Request error: " ++ m))
       | _ => None
       end).

(** *** download_sitemap *)

Definition download_sitemap (url : PyStr) : M (bool * string) :=
  try_except
    (response <- get url default_opts ;;
     if negb (status_code response =? 200)%Z
     then ret (false, "Failed to download: HTTP " ++ str_of_int (status_code response))
     else
       let filename := basename (urlparse_path E url) in
       if (filename =? "")%string
       then ret (false, "Invalid filename in URL")
       else
         (write_file filename (content response) ;;
          ret (true, "Saved as " ++ filename)))
    (fun e =>
       match e with
       | RequestException m => Some (ret (false, "Download error: " ++ m))
       | OSError m => Some (ret (false, "File write error: " ++ m))
       | _ => None
       end).

(** *** get_sitemap_urls *)

Definition get_sitemap_urls (sitemap_url : PyStr) : M (list PyStr) :=
  try_except
    (response <- get sitemap_url default_opts ;;
     if negb (status_code response =? 200)%Z
     then
       (log ERROR (MsgFetchMainFailed (status_code response)) ;;
        ret [])
     else
       (tree <- fromstring (content response) ;;
        let sitemaps := ET.findall_desc_child (ET.ns "sitemap") (ET.ns "loc") tree in
        log INFO (MsgFound (length sitemaps)) ;;
        let urls := map ET.text sitemaps in
        (match urls with
         | [] => ret tt
         | _ => log INFO (MsgFirstFew (slice_to urls 3))
         end) ;;
        ret urls))
    (fun e =>
       match e with
       | ParseError m | RequestException m =>
           Some (log ERROR (MsgParseMainError m) ;; ret [])
       | _ => None
       end).

(** *** get_top_urls *)

Definition get_top_urls (sitemap_url : PyStr) (limit : Z) : M (list PyStr) :=
  try_except
    (response <- get sitemap_url default_opts ;;
     if negb (status_code response =? 200)%Z
     then
       (log ERROR (MsgFetchSubFailed sitemap_url (status_code response)) ;;
        ret [])
     else
       (tree <- fromstring (content response) ;;
        let urls := map ET.text
                      (ET.findall_desc_child (ET.ns "url") (ET.ns "loc") tree) in
        ret (slice_to urls limit)))
    (fun e =>
       match e with
       | ParseError m | RequestException m =>
           Some (log ERROR (MsgParseSubError sitemap_url m) ;; ret [])
       | _ => None
       end).

(** *** check_url_status *)

Definition check_opts : ReqOpts :=
  mkReqOpts 5 true
    (Some "Mozilla/5.0 (Windows NT 10.0; Win64; x64) AppleWebKit/537.36").

(** [results.append(entry)] *)
Definition append (entry : PyStr * string) : M unit :=
  fun st => (Ok tt, mkSt (trace st) (results st ++ [entry])%list).

(** [webdriver.Chrome(service=Service(ChromeDriverManager().install()), ...)] *)
Definition new_chrome : M unit :=
  fun st =>
    match webdriver_Chrome E (trace st) with
    | Ok _ => (Ok tt, emit EvChromeStart st)
    | Raise e => (Raise e, st)
    end.

Definition navigate (url : PyStr) : M unit :=
  fun st => (driver_get E (trace st) url, emit (EvDriverGet url) st).

Definition current_url : M string :=
  fun st => (driver_current_url E (trace st), st).

Definition until_ready : M unit :=
  fun st => (wait_ready E (trace st), emit EvWaitReady st).

Definition until_complete : M unit :=
  fun st => (wait_complete E (trace st), emit EvWaitComplete st).

(** [time.sleep(seconds)], for a sleep that runs to its end. *)
Definition sleep (seconds : Z) : M unit :=
  fun st => (Ok tt, emit (EvSleep seconds) st).

Definition page_source : M string :=
  fun st => (driver_page_source E (trace st), st).

Definition quit : M unit :=
  fun st => (driver_quit E (trace st), emit EvDriverQuit st).

Definition soft_404_indicators : list string :=
  [ "404 page not found";
    "sorry... we seem to have lost this page between our fabric rolls";
    "page not found";
    "error 404";
    "not found" ].

Definition suspicious_titles : list string := ["loading..."; "menu"; ""; "home"].

(** [soup.title.string.lower() if soup.title and soup.title.string else ""] *)
Definition title_of (soup : Soup) : string :=
  match title_string soup with
  | Some s => if (s =? "")%string then "" else lower s
  | None => ""
  end.

(** [[x.string.lower() for x in soup.find_all(t) if x.string]] *)
Definition lowered_strings (l : list PyStr) : list string :=
  flat_map (fun x => match x with
                     | Some s => if (s =? "")%string then [] else [lower s]
                     | None => []
                     end) l.

(** The condition of the [if] that decides between the two labels. *)
Definition looks_404 (title content_lower : string)
           (h1_elements div_elements : list string) : bool :=
  mem title suspicious_titles
  || contains "404" title
  || contains "not found" title
  || existsb (fun indicator => contains indicator content_lower) soft_404_indicators
  || existsb (fun h1 => contains "404" h1 || contains "not found" h1) h1_elements
  || existsb (fun div =>
                existsb (fun indicator => contains indicator div) soft_404_indicators)
             div_elements.

(** The branch in which the per-URL procedure appended its label.  The
    script's loop body returns nothing; the embedding returns this tag so
    that statements can name the branch. *)
Inductive Outcome : Type :=
| FastPath404 | Redirect404 | Minimal404 | Heuristic404 | HeuristicOK.

(** The inner [try ... except: time.sleep(7)]; [true] stands for the
    branch that appends and continues. *)
Definition wait_for_page (initial_url : string) : M bool :=
  try_except
    (until_ready ;;
     until_complete ;;
     current <- current_url ;;
     ret (negb (current =? initial_url)%string && contains "/404" (lower current)))
    (fun _ => Some (sleep 7 ;; ret false)).

Definition snippet_file (final_url : string) : string :=
  "debug_" ++ replace_char "/" "_" (urlparse_path E (Some final_url)) ++ ".html".

(** From [rendered_content = driver.page_source] to the end of the body. *)
Definition classify_rendered (url : PyStr) (final_url rendered_content : string)
  : M Outcome :=
  let content_size := String.length rendered_content in
  if (content_size <? 5000)%nat
     || mem (lower (strip rendered_content)) ["loading..."; ""]
  then (append (url, "- ERROR 404") ;; ret Minimal404)
  else
    let soup := BeautifulSoup E rendered_content in
    let title := title_of soup in
    let content_lower := lower rendered_content in
    let h1_elements := lowered_strings (h1_strings soup) in
    let div_elements := lowered_strings (div_strings soup) in
    (outcome <-
       (if looks_404 title content_lower h1_elements div_elements
        then (append (url, "- ERROR 404") ;; ret Heuristic404)
        else (append (url, "- OK") ;; ret HeuristicOK)) ;;
     write_file (snippet_file final_url) rendered_content ;;
     ret outcome).

(** The body of the [try] inside the loop, for one URL. *)
Definition check_one (url : PyStr) : M Outcome :=
  response <- get url check_opts ;;
  let final_url := resp_url response in
  if (status_code response =? 404)%Z
  then (append (url, "- ERROR 404") ;; ret FastPath404)
  else
    (navigate url ;;
     initial_url <- current_url ;;
     redirected <- wait_for_page initial_url ;;
     if redirected : bool
     then (append (url, "- ERROR 404") ;; ret Redirect404)
     else
       (rendered_content <- page_source ;;
        classify_rendered url final_url rendered_content)).

(** One turn of the loop: the body and its [except (..., Exception)]. *)
Definition check_guarded (url : PyStr) : M unit :=
  try_except
    (check_one url ;; ret tt)
    (fun e =>
       if is_Exception e
       then Some (log ERROR (MsgCheckError url (exn_str e)) ;;
                  append (url, "- ERROR 404"))
       else None).

Fixpoint for_urls (urls : list PyStr) : M unit :=
  match urls with
  | [] => ret tt
  | url :: rest => check_guarded url ;; for_urls rest
  end.

Definition check_url_status (urls : list PyStr) : M (list (PyStr * string)) :=
  (fun st => (Ok tt, mkSt (trace st) [])) ;;
  new_chrome ;;
  try_finally (for_urls urls) quit ;;
  (fun st => (Ok (results st), st)).

(** *** check_sitemap *)

Fixpoint log_results (rs : list (PyStr * string)) : M unit :=
  match rs with
  | [] => ret tt
  | (url, status_message) :: rest =>
      log INFO (MsgResult url status_message) ;; log_results rest
  end.

(** One turn of the loop over the subsitemaps. *)
Definition check_subsitemap (subsitemap : PyStr) : M unit :=
  log INFO (MsgCheckingSub subsitemap) ;;
  '(is_valid, message) <- validate_xml subsitemap ;;
  log INFO (MsgSubValid is_valid message) ;;
  if negb is_valid then ret tt
  else
    ('(downloaded, download_message) <- download_sitemap subsitemap ;;
     log INFO (MsgDownload downloaded download_message) ;;
     if negb downloaded then ret tt
     else
       (urls <- get_top_urls subsitemap 10 ;;
        match urls with
        | [] => log INFO (MsgNoUrls subsitemap)
        | _ =>
            (log INFO (MsgCheckingTop (length urls) subsitemap) ;;
             rs <- check_url_status urls ;;
             log_results rs)
        end)).

Fixpoint for_subsitemaps (subsitemaps : list PyStr) : M unit :=
  match subsitemaps with
  | [] => ret tt
  | subsitemap :: rest => check_subsitemap subsitemap ;; for_subsitemaps rest
  end.

Definition check_sitemap (main_sitemap : PyStr) : M unit :=
  log INFO (MsgCheckingMain main_sitemap) ;;
  '(is_valid, message) <- validate_xml main_sitemap ;;
  log INFO (MsgMainValid is_valid message) ;;
  if negb is_valid then log ERROR MsgMainInvalid
  else
    (subsitemaps <- get_sitemap_urls main_sitemap ;;
     match subsitemaps with
     | [] => log INFO MsgNoSubsitemaps
     | _ => for_subsitemaps subsitemaps
     end).

End Script.

(** ** A small world to run the script in *)

Module Demo.

Definition root : string := "https://shop.example/sitemap.xml".
Definition child_a : string := "https://shop.example/maps/a.xml".
Definition child_b : string := "https://shop.example/maps/b.xml".
Definition child_c : string := "https://shop.example/maps/c.xml".
Definition maps_dir : string := "https://shop.example/maps/".
Definition gone : string := "https://shop.example/products/gone".
Definition chair : string := "https://shop.example/products/chair".
Definition missing : string := "https://shop.example/missing".

Definition loc (x : PyStr) : ET.Element := ET.Elem (ET.ns "loc") x [].
Definition entry (kind : string) (x : PyStr) : ET.Element :=
  ET.Elem (ET.ns kind) None [loc x].

(** The index lists two children. *)
Definition index_tree : ET.Element :=
  ET.Elem (ET.ns "sitemapindex") None
    [entry "sitemap" (Some child_a); entry "sitemap" (Some child_b)].

(** A leaf with one page. *)
Definition leaf_b : ET.Element :=
  ET.Elem (ET.ns "urlset") None [entry "url" (Some gone)].

(** A leaf with three entries, the second an empty [<loc/>]. *)
Definition leaf_c : ET.Element :=
  ET.Elem (ET.ns "urlset") None
    [entry "url" (Some chair); entry "url" None; entry "url" (Some gone)].

Fixpoint filler (n : nat) : string :=
  match n with
  | O => EmptyString
  | S k => String "x" (filler k)
  end.

Definition gone_html : string :=
  "<html><head><title>Shop</title></head><body><div>Page not found</div><p>"
  ++ filler 5000 ++ "</p></body></html>".

Definition chair_html : string :=
  "<html><head><title>Chair</title></head><body><h1>Chair</h1><p>"
  ++ filler 5000 ++ "</p></body></html>".

(** A page like [chair] whose path is 300 characters long. *)
Definition long_page : string := "https://shop.example/" ++ filler 300.

Definition http (_ : Trace) (url : PyStr) (_ : ReqOpts) : Res Response :=
  match url with
  | None => Raise (RequestException "Invalid URL 'None': No scheme supplied")
  | Some u =>
      if (u =? root)%string then Ok (mkResponse 200 "<sitemapindex/>" u)
      else if (u =? child_a)%string then Ok (mkResponse 200 "<urlset" u)
      else if (u =? child_b)%string then Ok (mkResponse 200 "<urlset b/>" u)
      else if (u =? child_c)%string then Ok (mkResponse 200 "<urlset c/>" u)
      else if (u =? maps_dir)%string then Ok (mkResponse 200 "<urlset b/>" u)
      else if (u =? gone)%string then Ok (mkResponse 200 gone_html u)
      else if (u =? chair)%string then Ok (mkResponse 200 chair_html u)
      else if (u =? long_page)%string then Ok (mkResponse 200 chair_html u)
      else Ok (mkResponse 404 "" u)
  end.

Definition parse (body : string) : Res ET.Element :=
  if (body =? "<sitemapindex/>")%string then Ok index_tree
  else if (body =? "<urlset b/>")%string then Ok leaf_b
  else if (body =? "<urlset c/>")%string then Ok leaf_c
  else Raise (ParseError "unclosed token: line 1, column 0").

(** The path of the URLs above: what follows the host. *)
Fixpoint drop (n : nat) (s : string) : string :=
  match n, s with
  | S k, String _ t => drop k t
  | _, _ => s
  end.

Definition path (url : PyStr) : string :=
  match url with
  | Some u => drop (String.length "https://shop.example") u
  | None => ""
  end.

(** The last navigation of the history. *)
Fixpoint last_navigation (h : Trace) (acc : PyStr) : PyStr :=
  match h with
  | [] => acc
  | EvDriverGet u :: t => last_navigation t u
  | _ :: t => last_navigation t acc
  end.

Definition shown (h : Trace) : string := py_str (last_navigation h None).

Definition source (h : Trace) : Res string :=
  if (shown h =? gone)%string then Ok gone_html
  else if (shown h =? chair)%string then Ok chair_html
  else if (shown h =? long_page)%string then Ok chair_html
  else Ok "".

Definition soup (html : string) : Soup :=
  if (html =? gone_html)%string
  then mkSoup (Some "Shop") [] [Some "Page not found"]
  else if (html =? chair_html)%string
  then mkSoup (Some "Chair") [Some "Chair"] []
  else mkSoup None [] [].

(** A file name is at most 255 characters long. *)
Definition write (_ : Trace) (name _ : string) : Res unit :=
  if (255 <? String.length name)%nat
  then Raise (OSError "[Errno 36] File name too long")
  else Ok tt.

Definition env : Env :=
  mkEnv http parse path
        write
        (fun _ => Ok tt)
        (fun _ _ => Ok tt)
        (fun h => Ok (shown h))
        (fun _ => Ok tt)
        (fun _ => Ok tt)
        source
        (fun _ => Ok tt)
        soup.

(** The same world without a usable browser. *)
Definition env_no_browser : Env :=
  mkEnv http parse path
        write
        (fun _ => Raise (OtherException "Unable to obtain driver for chrome"))
        (fun _ _ => Ok tt)
        (fun h => Ok (shown h))
        (fun _ => Ok tt)
        (fun _ => Ok tt)
        source
        (fun _ => Ok tt)
        soup.

Definition st0 : St := mkSt [] [].

End Demo.

(** ** Observations on traces and the properties stated with them *)

(** The files a trace has written, oldest first. *)
Definition files_written (tr : Trace) : list (string * string) :=
  flat_map (fun ev => match ev with
                      | EvFileWrite name data => [(name, data)]
                      | _ => []
                      end) tr.

(** The browser navigations of a trace. *)
Definition navigations (tr : Trace) : list PyStr :=
  flat_map (fun ev => match ev with EvDriverGet url => [url] | _ => [] end) tr.

(** How often [driver.quit] was called. *)
Definition quits (tr : Trace) : nat :=
  length (filter (fun ev => match ev with EvDriverQuit => true | _ => false end) tr).

(** The classification lines a run has logged, oldest first. *)
Definition result_lines (tr : Trace) : list (PyStr * string) :=
  flat_map (fun ev => match ev with
                      | EvLog _ (MsgResult url status_message) => [(url, status_message)]
                      | _ => []
                      end) tr.

(** The HTTP requests of a trace. *)
Definition requests (tr : Trace) : list PyStr :=
  flat_map (fun ev => match ev with EvHttpGet url _ => [url] | _ => [] end) tr.

(** The condition of the classifier, in words. *)
Definition soft_404_rule (title content_lower : string)
           (headings blocks : list string) : Prop :=
  In title ["loading..."; "menu"; ""; "home"] \/
  contains "404" title = true \/
  contains "not found" title = true \/
  (exists phrase, In phrase soft_404_indicators /\
                  contains phrase content_lower = true) \/
  (exists h1, In h1 headings /\
              (contains "404" h1 = true \/ contains "not found" h1 = true)) \/
  (exists div, In div blocks /\
               exists phrase, In phrase soft_404_indicators /\
                              contains phrase div = true).

(** The claim that every processed URL leaves a debug snapshot. *)
Definition persists_snapshot (E : Env) (url : PyStr) (st : St) : Prop :=
  files_written (trace (snd (check_guarded E url st))) <> files_written (trace st).

(** The claim that the classifier never raises to its caller. *)
Definition never_raises (E : Env) (urls : list PyStr) (st : St) : Prop :=
  exists rs, fst (check_url_status E urls st) = Ok rs.

Definition is_label (entry : PyStr * string) : Prop :=
  snd entry = "- OK" \/ snd entry = "- ERROR 404".

(** ** The [__main__] block and further observations *)

(** The two logging calls of the [__main__] block. *)
Inductive MainLog : Type :=
| MsgInterrupted
| MsgUnexpected (e : string).

Definition main_sitemap_url : string := "https://www.acaciafabrics.com/sitemap.xml".

(** [try: check_sitemap(main_sitemap_url)] with its two handlers: the exit
    status of the process, what a handler logged, and the final state.  A
    script that runs to its end exits with status 0. *)
Definition main_block (E : Env) (st : St) : Z * option MainLog * St :=
  match check_sitemap E (Some main_sitemap_url) st with
  | (Ok _, st') => (0%Z, None, st')
  | (Raise KeyboardInterrupt, st') => (0%Z, Some MsgInterrupted, st')
  | (Raise e, st') => (1%Z, Some (MsgUnexpected (exn_str e)), st')
  end.

(** How many browser sessions were created. *)
Definition starts (tr : Trace) : nat :=
  length (filter (fun ev => match ev with EvChromeStart => true | _ => false end) tr).

(** A file name that stays in the working directory. *)
Definition plain_name (name : string) : Prop :=
  name <> "" /\ contains "/" name = false.

Definition writes_plain_names (evs : Trace) : Prop :=
  Forall (fun file => plain_name (fst file)) (files_written evs).

(** What a call adds to the trace satisfies [Q], for every start state. *)
Definition emits {A} (Q : Trace -> Prop) (m : M A) : Prop :=
  forall st, exists evs,
    trace (snd (m st)) = (trace st ++ evs)%list /\ Q evs.

(** What a turn of the classifier's loop may add to the trace: no session
    is created or quit, no classification line is logged, and a file that
    is written has a plain name. *)
Definition loop_event (ev : Event) : Prop :=
  match ev with
  | EvChromeStart | EvDriverQuit => False
  | EvLog _ (MsgResult _ _) => False
  | EvFileWrite name _ => plain_name name
  | _ => True
  end.

(** What a call of the classifier adds: nothing, or one session that is
    created first and quit last. *)
Definition one_session (evs : Trace) : Prop :=
  evs = [] \/
  exists inner, evs = (EvChromeStart :: inner ++ [EvDriverQuit])%list /\
                Forall loop_event inner.


(** The entries one input URL can leave in the result list. *)
Definition entry_group (url : PyStr) (group : list (PyStr * string)) : Prop :=
  exists label,
    is_label (url, label) /\
    (group = [(url, label)] \/ group = [(url, label); (url, "- ERROR 404")]).



(** A world that answers on the script's own sitemap URL: every request
    gives the same document, which lists one child and one page. *)
Module Acacia.

Definition child : string := "https://www.acaciafabrics.com/sitemap_products_1.xml".
Definition page : string := "https://www.acaciafabrics.com/products/linen".

Definition document : ET.Element :=
  ET.Elem (ET.ns "sitemapindex") None
    [ET.Elem (ET.ns "sitemap") None [ET.Elem (ET.ns "loc") (Some child) []];
     ET.Elem (ET.ns "url") None [ET.Elem (ET.ns "loc") (Some page) []]].

Definition http (_ : Trace) (url : PyStr) (_ : ReqOpts) : Res Response :=
  Ok (mkResponse 200 "<sitemapindex/>" (py_str url)).

Definition env_no_browser : Env :=
  mkEnv http
        (fun _ => Ok document)
        (fun _ => "/sitemap_products_1.xml")
        (fun _ _ _ => Ok tt)
        (fun _ => Raise (OtherException "Unable to obtain driver for chrome"))
        (fun _ _ => Ok tt)
        (fun _ => Ok page)
        (fun _ => Ok tt)
        (fun _ => Ok tt)
        (fun _ => Ok "")
        (fun _ => Ok tt)
        (fun _ => mkSoup None [] []).

(** The same world with a browser that shows an empty page. *)
Definition env : Env :=
  mkEnv http
        (fun _ => Ok document)
        (fun _ => "/sitemap_products_1.xml")
        (fun _ _ _ => Ok tt)
        (fun _ => Ok tt)
        (fun _ _ => Ok tt)
        (fun _ => Ok page)
        (fun _ => Ok tt)
        (fun _ => Ok tt)
        (fun _ => Ok "")
        (fun _ => Ok tt)
        (fun _ => mkSoup None [] []).

End Acacia.

(** ** The classifier's rule and the page it reads, in the spec's words *)

(** What the trace holds between the plain fetch and the reading of the
    page source: the navigation to the URL, then the waits, which end
    normally or in the 7-second sleep. *)
Definition wait_events (waits : Trace) : Prop :=
  waits = [EvWaitReady; EvWaitComplete] \/
  waits = [EvWaitReady; EvSleep 7] \/
  waits = [EvWaitReady; EvWaitComplete; EvSleep 7].

(** The history at which the page source of [url] is read, for a turn
    that started at trace [tr]. *)
Definition page_history (tr : Trace) (url : PyStr) (waits : Trace) : Trace :=
  (tr ++ [EvHttpGet url check_opts; EvDriverGet url] ++ waits)%list.

(** The lowercased title of a page, empty when the page has none. *)
Definition page_title (soup : Soup) : string :=
  lower (match title_string soup with Some s => s | None => "" end).

(** The 404 conditions on a parsed page and its HTML: the title, the
    phrases in the HTML, the text of a heading, the text of a block. *)
Definition page_is_soft_404 (soup : Soup) (html : string) : Prop :=
  In (page_title soup) ["loading..."; "menu"; ""; "home"] \/
  contains "404" (page_title soup) = true \/
  contains "not found" (page_title soup) = true \/
  (exists phrase,
      In phrase ["404 page not found";
                 "sorry... we seem to have lost this page between our fabric rolls";
                 "page not found"; "error 404"; "not found"] /\
      contains phrase (lower html) = true) \/
  (exists text,
      In (Some text) (h1_strings soup) /\
      (contains "404" (lower text) = true \/
       contains "not found" (lower text) = true)) \/
  (exists text,
      In (Some text) (div_strings soup) /\
      exists phrase,
        In phrase ["404 page not found";
                   "sorry... we seem to have lost this page between our fabric rolls";
                   "page not found"; "error 404"; "not found"] /\
        contains phrase (lower text) = true).

(** [l1] is [l2] with some elements left out. *)
Inductive subsequence {A : Type} : list A -> list A -> Prop :=
| sub_nil : subsequence [] []
| sub_take x l1 l2 : subsequence l1 l2 -> subsequence (x :: l1) (x :: l2)
| sub_skip x l1 l2 : subsequence l1 l2 -> subsequence l1 (x :: l2).

(** The claim that the sampler returns [min m N] entries. *)
Definition returns_min_entries (E : Env) (url : PyStr) (N : Z) (st : St)
           (m : nat) : Prop :=
  exists urls,
    fst (get_top_urls E url N st) = Ok urls /\
    Z.of_nat (length urls) = Z.min (Z.of_nat m) N.

(** A world of odd documents and pages. *)
Module Odd.

Definition encoding : string := "https://odd.example/encoding.xml".
Definition nested : string := "https://odd.example/nested.xml".
Definition moved : string := "https://odd.example/moved".
Definition short : string := "https://odd.example/short".
Definition heading : string := "https://odd.example/heading".
Definition entity : string := "https://odd.example/entity".

(** A malformed document that declares an encoding the parser does not
    know. *)
Definition encoding_body : string :=
  "<?xml version='1.0' encoding='xxx'?><a></b>".

(** [<urlset><url><url><loc>first</loc></url><loc>second</loc></url></urlset>] *)
Definition nested_tree : ET.Element :=
  ET.Elem (ET.ns "urlset") None
    [ET.Elem (ET.ns "url") None
       [ET.Elem (ET.ns "url") None [ET.Elem (ET.ns "loc") (Some "first") []];
        ET.Elem (ET.ns "loc") (Some "second") []]].

(** A long page whose only sign of a 404 is the text of its heading. *)
Definition heading_html : string :=
  "<html><head><title>Shop</title></head><body><h1>404</h1><p>"
  ++ Demo.filler 5000 ++ "</p></body></html>".

(** A long page whose block text spells its phrase with a character
    reference, so that the HTML itself does not contain the phrase. *)
Definition entity_html : string :=
  "<html><head><title>Shop</title></head><body><div>Page not fo&#117;nd</div><p>"
  ++ Demo.filler 5000 ++ "</p></body></html>".

Definition short_html : string := "<html><body>moved</body></html>".

Definition http (_ : Trace) (url : PyStr) (_ : ReqOpts) : Res Response :=
  match url with
  | None => Raise (RequestException "Invalid URL 'None': No scheme supplied")
  | Some u =>
      if (u =? encoding)%string then Ok (mkResponse 200 encoding_body u)
      else if (u =? nested)%string then Ok (mkResponse 200 "<urlset nested/>" u)
      else Ok (mkResponse 200 "" u)
  end.

(** The parser raises [LookupError] on the unknown encoding. *)
Definition parse (body : string) : Res ET.Element :=
  if (body =? encoding_body)%string
  then Raise (OtherException "unknown encoding: xxx")
  else if (body =? "<urlset nested/>")%string then Ok nested_tree
  else Raise (ParseError "no element found: line 1, column 0").

Definition path (url : PyStr) : string :=
  match url with
  | Some u => Demo.drop (String.length "https://odd.example") u
  | None => ""
  end.

Definition shown (h : Trace) : string := py_str (Demo.last_navigation h None).

Definition waited (h : Trace) : bool :=
  existsb (fun ev => match ev with EvWaitComplete => true | _ => false end) h.

(** The page [moved] sends the browser on to [/404] while it loads. *)
Definition current (h : Trace) : Res string :=
  if (shown h =? moved)%string && waited h
  then Ok "https://odd.example/404"
  else Ok (shown h).

Definition source (h : Trace) : Res string :=
  if (shown h =? heading)%string then Ok heading_html
  else if (shown h =? entity)%string then Ok entity_html
  else Ok short_html.

Definition soup (html : string) : Soup :=
  if (html =? heading_html)%string
  then mkSoup (Some "Shop") [Some "404"] []
  else if (html =? entity_html)%string
  then mkSoup (Some "Shop") [] [Some "Page not found"]
  else mkSoup None [] [Some "moved"].

Definition env : Env :=
  mkEnv http parse path
        (fun _ _ _ => Ok tt)
        (fun _ => Ok tt)
        (fun _ _ => Ok tt)
        current
        (fun _ => Ok tt)
        (fun _ => Ok tt)
        source
        (fun _ => Ok tt)
        soup.

End Odd.

Arguments ET.ns : simpl never.
Arguments ET.findall_desc_child : simpl never.

(** ** Facts about the string helpers *)

Lemma prefix_app (x s : string) : String.prefix x (x ++ s) = true.
Proof.
  induction x as [|c x IH]; simpl.
  - destruct s; reflexivity.
  - destruct (ascii_dec c c); [exact IH | congruence].
Qed.

Lemma prefix_contains (x h : string) :
  String.prefix x h = true -> contains x h = true.
Proof. intros Hp. destruct h; cbn [contains]; rewrite Hp; reflexivity. Qed.

Lemma contains_prefix (x s : string) : contains x (x ++ s) = true.
Proof. apply prefix_contains, prefix_app. Qed.

Lemma contains_app_left (x a s : string) :
  contains x s = true -> contains x (a ++ s) = true.
Proof.
  intros H. induction a as [|c a IH]; simpl; [exact H|].
  rewrite IH. apply orb_true_r.
Qed.

Lemma contains_infix (x a b : string) : contains x (a ++ x ++ b) = true.
Proof. apply contains_app_left, contains_prefix. Qed.

(** ** The sitemap validator *)

Ltac run_script :=
  cbv [validate_xml download_sitemap get_sitemap_urls get_top_urls
       try_except try_finally bind ret get fromstring write_file log emit];
  cbn [fst snd trace results].

(** The validator, case by case, for a parser that reports a body it
    does not accept by [ParseError]: [(True, "Valid XML")] exactly when the
    status is 200 and the body parses; a response with another status
    gives [False] and a message that contains the status code; a body
    rejected with [ParseError] gives [False] and the XML-error message; a
    failed request gives [False] and a request-error message.  In each of
    these cases the call returns and does not raise. *)
Theorem validate_xml_contract (E : Env) (url : PyStr) (st : St) :
  (forall message,
      fst (validate_xml E url st) = Ok (true, message) <->
      message = "Valid XML" /\
      exists response tree,
        requests_get E (trace st) url default_opts = Ok response /\
        status_code response = 200%Z /\
        ET_fromstring E (content response) = Ok tree) /\
  (forall response,
      requests_get E (trace st) url default_opts = Ok response ->
      status_code response <> 200%Z ->
      exists message,
        fst (validate_xml E url st) = Ok (false, message) /\
        contains (str_of_int (status_code response)) message = true) /\
  (forall response m,
      requests_get E (trace st) url default_opts = Ok response ->
      status_code response = 200%Z ->
      ET_fromstring E (content response) = Raise (ParseError m) ->
      fst (validate_xml E url st) = Ok (false, "Invalid XML structure")) /\
  (forall m,
      requests_get E (trace st) url default_opts = Raise (RequestException m) ->
      fst (validate_xml E url st) = Ok (false, "Request error: " ++ m)).
Proof.
  split; [intros message; split|split; [|split]].
  - run_script.
    destruct (requests_get E (trace st) url default_opts) as [response|e] eqn:Hget.
    + destruct (Z.eqb_spec (status_code response) 200) as [H200|H200]; cbn.
      * destruct (ET_fromstring E (content response)) as [tree|e] eqn:Hparse; cbn.
        -- intros Heq. split; [congruence|]. exists response, tree. auto.
        -- destruct e; cbn; congruence.
      * congruence.
    + destruct e; cbn; congruence.
  - intros [-> (response & tree & Hget & H200 & Hparse)].
    run_script. rewrite Hget, H200. cbn. rewrite Hparse. reflexivity.
  - intros response Hget H200.
    exists ("HTTP " ++ str_of_int (status_code response) ++ " received").
    split; [|apply contains_infix].
    run_script. rewrite Hget.
    destruct (Z.eqb_spec (status_code response) 200); [contradiction | reflexivity].
  - intros response m Hget H200 Hparse.
    run_script. rewrite Hget, H200. cbn. rewrite Hparse. reflexivity.
  - intros m Hget. run_script. rewrite Hget. reflexivity.
Qed.

(** What the parser raises besides [ParseError] is not handled: it leaves
    [validate_xml]. *)
Lemma validate_xml_lets_other_errors_through (E : Env) (url : PyStr) (st : St)
      (response : Response) (m : string) :
  requests_get E (trace st) url default_opts = Ok response ->
  status_code response = 200%Z ->
  ET_fromstring E (content response) = Raise (OtherException m) ->
  fst (validate_xml E url st) = Raise (OtherException m).
Proof.
  intros Hget H200 Hparse.
  run_script. rewrite Hget, H200. cbn. rewrite Hparse. reflexivity.
Qed.

(** C2 (the code departs from the claim): a malformed body that declares
    an encoding the parser does not know makes the parser raise
    [LookupError], which is neither of the two exceptions [validate_xml]
    handles; with status 200 and this body the call raises instead of
    returning [False] and an XML-error message. *)
Theorem validate_xml_raises_on_unknown_encoding :
  requests_get Odd.env [] (Some Odd.encoding) default_opts =
    Ok (mkResponse 200 "<?xml version='1.0' encoding='xxx'?><a></b>" Odd.encoding) /\
  ET_fromstring Odd.env "<?xml version='1.0' encoding='xxx'?><a></b>" =
    Raise (OtherException "unknown encoding: xxx") /\
  fst (validate_xml Odd.env (Some Odd.encoding) Demo.st0) =
    Raise (OtherException "unknown encoding: xxx").
Proof. repeat split; vm_compute; reflexivity. Qed.

(** ** The sitemap downloader *)

(** C7: with status 200 and a path that has a basename, the download writes
    the response body, unchanged, to the file named by the basename and
    returns success (the write itself being accepted by the file system);
    with status 200 and a path without basename it returns
    [(False, "Invalid filename in URL")] and writes nothing, and such a URL
    never leads to a write or to success whatever the fetch gives; with
    another status, or when the request fails, nothing is written. *)
Theorem download_sitemap_contract (E : Env) (url : PyStr) (st : St) :
  let fetched := (trace st ++ [EvHttpGet url default_opts])%list in
  let filename := basename (urlparse_path E url) in
  (forall response,
      requests_get E (trace st) url default_opts = Ok response ->
      status_code response = 200%Z ->
      filename <> "" ->
      file_write E fetched filename (content response) = Ok tt ->
      download_sitemap E url st =
        (Ok (true, "Saved as " ++ filename),
         mkSt (fetched ++ [EvFileWrite filename (content response)])%list
              (results st))) /\
  (forall response,
      requests_get E (trace st) url default_opts = Ok response ->
      status_code response = 200%Z ->
      filename = "" ->
      download_sitemap E url st =
        (Ok (false, "Invalid filename in URL"), mkSt fetched (results st))) /\
  (filename = "" ->
   snd (download_sitemap E url st) = mkSt fetched (results st) /\
   forall message, fst (download_sitemap E url st) <> Ok (true, message)) /\
  (forall response,
      requests_get E (trace st) url default_opts = Ok response ->
      status_code response <> 200%Z ->
      download_sitemap E url st =
        (Ok (false, "Failed to download: HTTP " ++ str_of_int (status_code response)),
         mkSt fetched (results st))) /\
  (forall m,
      requests_get E (trace st) url default_opts = Raise (RequestException m) ->
      download_sitemap E url st =
        (Ok (false, "Download error: " ++ m), mkSt fetched (results st))).
Proof.
  intros fetched filename. subst fetched filename.
  split; [|split; [|split; [|split]]].
  - intros response Hget H200 Hname Hwrite.
    run_script. rewrite Hget, H200. cbn.
    destruct (String.eqb_spec (basename (urlparse_path E url)) "") as [He|_];
      [contradiction|].
    cbn. rewrite Hwrite. reflexivity.
  - intros response Hget H200 Hname.
    run_script. rewrite Hget, H200, Hname. reflexivity.
  - intros Hname. run_script. rewrite Hname.
    destruct (requests_get E (trace st) url default_opts) as [response|e].
    + destruct (Z.eqb_spec (status_code response) 200); cbn;
        split; (reflexivity || congruence).
    + destruct e; cbn; split; (reflexivity || congruence).
  - intros response Hget H200.
    run_script. rewrite Hget.
    destruct (Z.eqb_spec (status_code response) 200); [contradiction | reflexivity].
  - intros m Hget. run_script. rewrite Hget. reflexivity.
Qed.

(** ** The indexer and the sampler *)

Lemma slice_to_nonneg {A} (l : list A) (N : Z) :
  (0 <= N)%Z -> slice_to l N = firstn (Z.to_nat N) l.
Proof.
  intros HN. unfold slice_to.
  destruct (Z.leb_spec 0 N); [reflexivity | lia].
Qed.

(** *** [findall] and document order *)

Lemma Element_forall_ind (P : ET.Element -> Prop) :
  (forall t x cs, Forall P cs -> P (ET.Elem t x cs)) -> forall e, P e.
Proof.
  intros H. fix IH 1. intros [t x cs]. apply H.
  induction cs as [|c cs IHcs]; constructor; [apply IH | exact IHcs].
Qed.

Lemma filter_none {A} (p : A -> bool) (l : list A) :
  existsb p l = false -> filter p l = [].
Proof.
  induction l as [|x l IH]; cbn; [reflexivity|].
  intros H. apply orb_false_iff in H. destruct H as [Hx Hl].
  rewrite Hx. apply IH, Hl.
Qed.

Lemma existsb_flat_map_false {A B} (p : B -> bool) (f : A -> list B) (l : list A) :
  existsb p (flat_map f l) = false <-> forallb (fun x => negb (existsb p (f x))) l = true.
Proof.
  induction l as [|x l IH]; cbn; [tauto|].
  rewrite existsb_app, orb_false_iff, andb_true_iff, negb_true_iff, IH. tauto.
Qed.

Lemma flat_map_nil {A B} (f : A -> list B) (l : list A) :
  (forall x, In x l -> f x = []) -> flat_map f l = [].
Proof.
  induction l as [|x l IH]; cbn; [reflexivity|].
  intros H. rewrite (H x), IH; auto.
Qed.

Section DocumentOrder.

Variables a b : string.

(** What [.//a/b] finds in the subtree of [e], [e] included. *)
Let found (e : ET.Element) : list ET.Element :=
  flat_map (ET.child b) (filter (ET.has_tag a) (ET.iter e)).

Lemma found_below (cs : list ET.Element) :
  flat_map (ET.child b) (filter (ET.has_tag a) (flat_map ET.iter cs)) =
  flat_map found cs.
Proof.
  induction cs as [|c cs IH]; cbn [flat_map]; [reflexivity|].
  rewrite filter_app, flat_map_app, IH. reflexivity.
Qed.

Lemma found_nothing (e : ET.Element) :
  existsb (ET.has_tag a) (ET.iter e) = false -> found e = [].
Proof. intros H. unfold found. rewrite (filter_none _ _ H). reflexivity. Qed.

Lemma walk_nothing (e : ET.Element) :
  existsb (ET.has_tag a) (ET.iter e) = false ->
  forall under_a,
    ET.walk a b under_a e = if under_a && ET.has_tag b e then [e] else [].
Proof.
  induction e as [t x cs IH] using Element_forall_ind.
  cbn [ET.iter existsb ET.walk]. intros H under_a.
  apply orb_false_iff in H. destruct H as [Ht Hcs]. rewrite Ht.
  rewrite flat_map_nil; [apply app_nil_r|].
  intros c Hc. rewrite Forall_forall in IH. rewrite (IH c Hc); [reflexivity|].
  apply existsb_flat_map_false in Hcs. rewrite forallb_forall in Hcs.
  apply negb_true_iff, Hcs, Hc.
Qed.

Lemma found_in_document_order (e : ET.Element) :
  ET.unnested a e = true -> found e = ET.walk a b false e.
Proof.
  induction e as [t x cs IH] using Element_forall_ind.
  cbn [ET.unnested ET.walk andb]. intros H.
  apply andb_true_iff in H. destruct H as [Hself Hcs].
  unfold found. cbn [ET.iter filter].
  rewrite Forall_forall in IH. rewrite forallb_forall in Hcs.
  destruct (ET.has_tag a (ET.Elem t x cs)) eqn:Ht; cbn [flat_map app].
  - rewrite forallb_forall in Hself.
    rewrite found_below, flat_map_nil, app_nil_r.
    + unfold ET.child. cbn [ET.children].
      clear IH Hcs Ht. induction cs as [|c cs IHcs]; cbn [filter flat_map];
        [reflexivity|].
      rewrite walk_nothing
        by (apply negb_true_iff, Hself; left; reflexivity).
      cbn [andb].
      rewrite IHcs by (intros y Hy; apply Hself; right; exact Hy).
      destruct (ET.has_tag b c); reflexivity.
    + intros c Hc. apply found_nothing, negb_true_iff, Hself, Hc.
  - rewrite found_below. clear Hself Ht.
    induction cs as [|c cs IHcs]; cbn [flat_map]; [reflexivity|].
    rewrite (IH c) by (try apply Hcs; left; reflexivity).
    rewrite IHcs; [reflexivity | |];
      intros y Hy; [apply IH | apply Hcs]; right; exact Hy.
Qed.

(** When no [a] element lies inside another, [findall] lists its matches
    in document order. *)
Lemma findall_document_order (tree : ET.Element) :
  forallb (ET.unnested a) (ET.children tree) = true ->
  ET.findall_desc_child a b tree = ET.document_order a b tree.
Proof.
  intros H. unfold ET.findall_desc_child, ET.descendants, ET.document_order.
  rewrite found_below. rewrite forallb_forall in H.
  induction (ET.children tree) as [|c cs IH]; cbn [flat_map]; [reflexivity|].
  rewrite found_in_document_order by (apply H; left; reflexivity).
  rewrite IH; [reflexivity|]. intros y Hy. apply H. right. exact Hy.
Qed.

End DocumentOrder.

(** C8, as stated, fails: with the limit -1 a sitemap of three entries
    gives two entries, not [min 3 (-1)]; a [url] element inside another
    puts an entry that comes later in the document first; and when the
    parser raises something else than [ParseError], as it does on an
    unknown encoding, [get_top_urls] raises. *)
Lemma sampler_claim_fails :
  fst (get_top_urls Demo.env (Some Demo.child_c) (-1) Demo.st0) =
    Ok [Some Demo.chair; None] /\
  ~ returns_min_entries Demo.env (Some Demo.child_c) (-1) Demo.st0 3 /\
  fst (get_top_urls Odd.env (Some Odd.nested) 10 Demo.st0) =
    Ok [Some "second"; Some "first"] /\
  map ET.text (ET.document_order (ET.ns "url") (ET.ns "loc") Odd.nested_tree) =
    [Some "first"; Some "second"] /\
  fst (get_top_urls Odd.env (Some Odd.encoding) 10 Demo.st0) =
    Raise (OtherException "unknown encoding: xxx").
Proof.
  split; [reflexivity | split; [|repeat split; vm_compute; reflexivity]].
  intros (urls & Hrun & Hlen).
  assert (Hurls : urls = [Some Demo.chair; None]).
  { assert (H : fst (get_top_urls Demo.env (Some Demo.child_c) (-1) Demo.st0) =
                Ok [Some Demo.chair; None]) by reflexivity.
    rewrite H in Hrun. inversion Hrun. reflexivity. }
  subst urls. cbn in Hlen. discriminate Hlen.
Qed.

(** C8, amended: on a sitemap that is fetched with status 200 and parses,
    with [m] matched [<url><loc>] elements, [get_top_urls] returns for a
    limit [N >= 0] the first [N] entries in the order [findall] lists
    them, exactly [min m N] of them, and for a limit [N < 0] the first
    [m - |N|] of them; the order of [findall] is document order in a
    sitemap whose [url] elements do not lie inside one another.  On a
    [ParseError], a [RequestException] or another status it returns the
    empty list and does not raise. *)
Theorem get_top_urls_truncates (E : Env) (url : PyStr) (N : Z) (st : St) :
  (forall response tree,
      requests_get E (trace st) url default_opts = Ok response ->
      status_code response = 200%Z ->
      ET_fromstring E (content response) = Ok tree ->
      let entries :=
        map ET.text (ET.findall_desc_child (ET.ns "url") (ET.ns "loc") tree) in
      exists urls,
        fst (get_top_urls E url N st) = Ok urls /\
        ((0 <= N)%Z ->
         urls = firstn (Z.to_nat N) entries /\
         length urls = Nat.min (length entries) (Z.to_nat N)) /\
        ((N < 0)%Z ->
         urls = firstn (length entries - Z.to_nat (- N)) entries /\
         length urls = length entries - Z.to_nat (- N)) /\
        (forallb (ET.unnested (ET.ns "url")) (ET.children tree) = true ->
         entries =
           map ET.text (ET.document_order (ET.ns "url") (ET.ns "loc") tree))) /\
  (forall response m,
      requests_get E (trace st) url default_opts = Ok response ->
      status_code response = 200%Z ->
      ET_fromstring E (content response) = Raise (ParseError m) ->
      fst (get_top_urls E url N st) = Ok []) /\
  (forall m,
      requests_get E (trace st) url default_opts = Raise (RequestException m) ->
      fst (get_top_urls E url N st) = Ok []) /\
  (forall response,
      requests_get E (trace st) url default_opts = Ok response ->
      status_code response <> 200%Z ->
      fst (get_top_urls E url N st) = Ok []).
Proof.
  split; [|split; [|split]].
  - intros response tree Hget H200 Hparse entries.
    exists (slice_to entries N). split; [|split; [|split]].
    + run_script. rewrite Hget, H200. cbn. rewrite Hparse. reflexivity.
    + intros HN. rewrite slice_to_nonneg by exact HN.
      split; [reflexivity|]. rewrite length_firstn. apply Nat.min_comm.
    + intros HN. unfold slice_to.
      destruct (Z.leb_spec 0 N) as [Hpos|_]; [lia|].
      split; [reflexivity|]. rewrite length_firstn. lia.
    + intros Hflat. subst entries.
      rewrite (findall_document_order _ _ tree Hflat). reflexivity.
  - intros response m Hget H200 Hparse.
    run_script. rewrite Hget, H200. cbn. rewrite Hparse. reflexivity.
  - intros m Hget. run_script. rewrite Hget. reflexivity.
  - intros response Hget H200. run_script. rewrite Hget.
    destruct (Z.eqb_spec (status_code response) 200); [contradiction | reflexivity].
Qed.

(** C10: the indexer returns one entry per matched [<sitemap><loc>] element
    and the sampler one per matched [<url><loc>] element up to its limit;
    the entry is the element's [text], so an element without text content
    yields the entry [None] and the lists are not lists of strings only. *)
Theorem loc_entries_keep_none (E : Env) (url : PyStr) (limit : Z) (st : St) :
  forall response tree,
    requests_get E (trace st) url default_opts = Ok response ->
    status_code response = 200%Z ->
    ET_fromstring E (content response) = Ok tree ->
    let sitemaps := ET.findall_desc_child (ET.ns "sitemap") (ET.ns "loc") tree in
    let locs := ET.findall_desc_child (ET.ns "url") (ET.ns "loc") tree in
    (exists urls,
        fst (get_sitemap_urls E url st) = Ok urls /\
        length urls = length sitemaps /\
        forall i loc, nth_error sitemaps i = Some loc ->
                      nth_error urls i = Some (ET.text loc)) /\
    (exists urls,
        fst (get_top_urls E url limit st) = Ok urls /\
        forall i loc, nth_error locs i = Some loc ->
                      (Z.of_nat i < limit)%Z ->
                      nth_error urls i = Some (ET.text loc)).
Proof.
  intros response tree Hget H200 Hparse sitemaps locs. split.
  - exists (map ET.text sitemaps). split; [|split].
    + run_script. rewrite Hget, H200. cbn. rewrite Hparse. cbn.
      fold sitemaps. destruct (map ET.text sitemaps); reflexivity.
    + apply length_map.
    + intros i loc Hi. rewrite nth_error_map, Hi. reflexivity.
  - exists (slice_to (map ET.text locs) limit). split.
    + run_script. rewrite Hget, H200. cbn. rewrite Hparse. reflexivity.
    + intros i loc Hi Hlt.
      rewrite slice_to_nonneg by lia.
      rewrite nth_error_firstn.
      destruct (Nat.ltb_spec i (Z.to_nat limit)); [|lia].
      rewrite nth_error_map, Hi. reflexivity.
Qed.

(** ** The page classifier *)

Lemma files_written_app (a b : Trace) :
  files_written (a ++ b)%list = (files_written a ++ files_written b)%list.
Proof. apply flat_map_app. Qed.

Lemma navigations_app (a b : Trace) :
  navigations (a ++ b)%list = (navigations a ++ navigations b)%list.
Proof. apply flat_map_app. Qed.

Lemma quits_app (a b : Trace) : quits (a ++ b)%list = quits a + quits b.
Proof. unfold quits. rewrite filter_app, length_app. reflexivity. Qed.

Ltac run_classifier :=
  cbv [check_one classify_rendered wait_for_page check_guarded append navigate
       current_url until_ready until_complete sleep page_source quit new_chrome
       try_except try_finally bind ret get write_file log emit];
  cbn [fst snd trace results].

(** Case analysis on a scrutinee that has no case analysis inside. *)
Ltac break_inner :=
  match goal with
  | |- context [match ?x with _ => _ end] =>
      lazymatch x with
      | context [match _ with _ => _ end] => fail
      | _ => destruct x eqn:?
      end
  end.

(** C6: when the plain fetch, made with the desktop user agent and following
    redirects, ends with status 404, the per-URL procedure appends the
    ERROR 404 label for the URL (the string ["- ERROR 404"]) and stops: its
    only effect is the HTTP request, and the browser is not navigated. *)
Theorem fast_path_404 (E : Env) (url : PyStr) (st : St) (response : Response)
        (Hget : requests_get E (trace st) url check_opts = Ok response)
        (H404 : status_code response = 404%Z) :
  let st' := mkSt (trace st ++ [EvHttpGet url check_opts])%list
                  (results st ++ [(url, "- ERROR 404")])%list in
  check_one E url st = (Ok FastPath404, st') /\
  check_guarded E url st = (Ok tt, st') /\
  navigations (trace st') = navigations (trace st) /\
  allow_redirects check_opts = true /\
  user_agent check_opts =
    Some "Mozilla/5.0 (Windows NT 10.0; Win64; x64) AppleWebKit/537.36".
Proof.
  cbn zeta. split; [|split; [|split; [|split]]].
  - run_classifier. rewrite Hget, H404. reflexivity.
  - run_classifier. rewrite Hget, H404. reflexivity.
  - cbn [trace]. rewrite navigations_app. cbn. apply app_nil_r.
  - reflexivity.
  - reflexivity.
Qed.

Lemma mem_In (x : string) (l : list string) : mem x l = true <-> In x l.
Proof.
  unfold mem. rewrite existsb_exists. split.
  - intros (y & Hy & Heq). apply String.eqb_eq in Heq. subst. exact Hy.
  - intros Hx. exists x. split; [exact Hx | apply String.eqb_refl].
Qed.

Lemma looks_404_iff (title content_lower : string) (h1s divs : list string) :
  looks_404 title content_lower h1s divs = true <->
  soft_404_rule title content_lower h1s divs.
Proof.
  unfold looks_404, soft_404_rule.
  rewrite !orb_true_iff, mem_In, !existsb_exists.
  change suspicious_titles with ["loading..."; "menu"; ""; "home"].
  assert (Hh : (exists h1, In h1 h1s /\
                  (contains "404" h1 || contains "not found" h1)%bool = true) <->
               (exists h1, In h1 h1s /\
                  (contains "404" h1 = true \/ contains "not found" h1 = true))).
  { split; intros (h & Hin & Hc); exists h; split; try exact Hin;
      apply orb_true_iff; exact Hc. }
  assert (Hd : (exists div, In div divs /\
                  existsb (fun indicator => contains indicator div)
                          soft_404_indicators = true) <->
               (exists div, In div divs /\
                  exists phrase, In phrase soft_404_indicators /\
                                 contains phrase div = true)).
  { split; intros (d & Hin & Hc); exists d; split; try exact Hin;
      apply existsb_exists; exact Hc. }
  tauto.
Qed.

Lemma lowered_strings_In (x : string) (l : list PyStr) :
  In x (lowered_strings l) <->
  exists text, In (Some text) l /\ text <> "" /\ x = lower text.
Proof.
  unfold lowered_strings. rewrite in_flat_map. split.
  - intros ([text|] & Hin & Hx); [|contradiction].
    destruct (String.eqb_spec text "") as [->|Hne]; [contradiction|].
    destruct Hx as [<-|[]]. exists text. auto.
  - intros (text & Hin & Hne & ->). exists (Some text). split; [exact Hin|].
    destruct (String.eqb_spec text ""); [contradiction | left; reflexivity].
Qed.

Lemma title_of_page_title (soup : Soup) : title_of soup = page_title soup.
Proof.
  unfold title_of, page_title. destruct (title_string soup) as [text|];
    [|reflexivity].
  destruct (String.eqb_spec text "") as [->|_]; reflexivity.
Qed.

(** The condition the code evaluates is the condition on the page. *)
Lemma looks_404_page_iff (E : Env) (html : string) :
  let soup := BeautifulSoup E html in
  looks_404 (title_of soup) (lower html)
            (lowered_strings (h1_strings soup))
            (lowered_strings (div_strings soup)) = true <->
  page_is_soft_404 soup html.
Proof.
  intros soup. rewrite looks_404_iff. unfold soft_404_rule, page_is_soft_404.
  rewrite title_of_page_title.
  change soft_404_indicators
    with ["404 page not found";
          "sorry... we seem to have lost this page between our fabric rolls";
          "page not found"; "error 404"; "not found"].
  assert (Hh : (exists h1, In h1 (lowered_strings (h1_strings soup)) /\
                  (contains "404" h1 = true \/ contains "not found" h1 = true)) <->
               (exists text, In (Some text) (h1_strings soup) /\
                  (contains "404" (lower text) = true \/
                   contains "not found" (lower text) = true))).
  { split.
    - intros (h1 & Hin & Hc). apply lowered_strings_In in Hin.
      destruct Hin as (text & Hin & _ & ->). exists text. auto.
    - intros (text & Hin & Hc). exists (lower text). split; [|exact Hc].
      apply lowered_strings_In. exists text. split; [exact Hin|].
      split; [|reflexivity]. intros ->. cbn in Hc.
      destruct Hc; discriminate. }
  assert (Hd : (exists div, In div (lowered_strings (div_strings soup)) /\
                  exists phrase,
                    In phrase ["404 page not found";
                               "sorry... we seem to have lost this page between our fabric rolls";
                               "page not found"; "error 404"; "not found"] /\
                    contains phrase div = true) <->
               (exists text, In (Some text) (div_strings soup) /\
                  exists phrase,
                    In phrase ["404 page not found";
                               "sorry... we seem to have lost this page between our fabric rolls";
                               "page not found"; "error 404"; "not found"] /\
                    contains phrase (lower text) = true)).
  { split.
    - intros (div & Hin & Hc). apply lowered_strings_In in Hin.
      destruct Hin as (text & Hin & _ & ->). exists text. auto.
    - intros (text & Hin & Hc). exists (lower text). split; [|exact Hc].
      apply lowered_strings_In. exists text. split; [exact Hin|].
      split; [|reflexivity]. intros ->.
      destruct Hc as (phrase & Hp & Hc). cbn in Hp.
      destruct Hp as [<-|[<-|[<-|[<-|[<-|[]]]]]]; discriminate Hc. }
  tauto.
Qed.


(** C3, as stated, fails: a URL whose plain fetch gives 404, a URL whose
    page moves the browser to /404, and a URL whose page is short are each
    classified without a debug file being written. *)
Lemma no_snapshot_on_early_outcomes :
  (fst (check_one Demo.env (Some Demo.missing) Demo.st0) = Ok FastPath404 /\
   ~ persists_snapshot Demo.env (Some Demo.missing) Demo.st0) /\
  (fst (check_one Odd.env (Some Odd.moved) Demo.st0) = Ok Redirect404 /\
   ~ persists_snapshot Odd.env (Some Odd.moved) Demo.st0) /\
  (fst (check_one Odd.env (Some Odd.short) Demo.st0) = Ok Minimal404 /\
   ~ persists_snapshot Odd.env (Some Odd.short) Demo.st0).
Proof.
  repeat split; try reflexivity;
    unfold persists_snapshot; intros H; apply H; reflexivity.
Qed.

Ltac settle_writes :=
  cbn [trace results];
  repeat rewrite files_written_app;
  cbn [files_written flat_map app];
  rewrite ?app_nil_r.

Ltac snapshot_of waits :=
  eexists; exists waits; eexists;
  unfold page_history, wait_events;
  repeat rewrite <- app_assoc in *; cbn [app] in *;
  (split; [reflexivity|]);
  (split; [auto|]);
  (split; [eassumption | reflexivity]).

(** C3, amended: the rendered HTML is persisted only when the per-URL
    procedure reaches the heuristic stage (outcome heuristic 404 or OK).
    The file is then named ["debug_" + path + ".html"], from the path of
    the plain fetch's final URL with slashes replaced by underscores, and
    holds the page source the browser gave for this URL, read after the
    navigation to the URL and the waits; writing it is the last effect of
    the turn.  On the fast path, on a redirect to /404 and on minimal
    content no debug file is written. *)
Theorem debug_snapshot_only_after_heuristics (E : Env) (url : PyStr) (st : St) :
  match check_one E url st with
  | (Ok Heuristic404, st') | (Ok HeuristicOK, st') =>
      exists response waits rendered,
        requests_get E (trace st) url check_opts = Ok response /\
        wait_events waits /\
        driver_page_source E (page_history (trace st) url waits) = Ok rendered /\
        trace st' =
          (page_history (trace st) url waits ++
           [EvFileWrite
              ("debug_"
                 ++ replace_char "/" "_" (urlparse_path E (Some (resp_url response)))
                 ++ ".html")%string
              rendered])%list
  | (Ok FastPath404, st') | (Ok Redirect404, st') | (Ok Minimal404, st') =>
      files_written (trace st') = files_written (trace st)
  | (Raise _, _) => True
  end.
Proof.
  run_classifier.
  repeat (break_inner; cbn [fst snd trace results]);
    try exact I;
    try (settle_writes; reflexivity);
    first [ snapshot_of [EvWaitReady; EvWaitComplete]
          | snapshot_of [EvWaitReady; EvSleep 7]
          | snapshot_of [EvWaitReady; EvWaitComplete; EvSleep 7] ].
Qed.

(** *** One turn of the loop *)

(** A turn of the loop never calls [driver.quit]. *)
Lemma check_guarded_trace (E : Env) (url : PyStr) (st : St) :
  exists evs,
    trace (snd (check_guarded E url st)) = (trace st ++ evs)%list /\ quits evs = 0.
Proof.
  run_classifier.
  repeat (break_inner; cbn [fst snd trace results]);
    repeat rewrite <- app_assoc; cbn [app];
    first [ eexists; split; [reflexivity | reflexivity]
          | exists []; split; [symmetry; apply app_nil_r | reflexivity] ].
Qed.

(** What a turn of the loop lets through is not an [Exception]. *)
Lemma check_guarded_raises (E : Env) (url : PyStr) (st : St) (e : Exn) :
  fst (check_guarded E url st) = Raise e -> is_Exception e = false.
Proof.
  cbv [check_guarded try_except bind ret log append].
  destruct (check_one E url st) as [[o|e0] s0]; cbn; [discriminate|].
  destruct (is_Exception e0) eqn:He0; cbn; [discriminate|].
  intros H. inversion H. subst. exact He0.
Qed.

(** An [Exception] raised by the per-URL procedure becomes an ERROR 404
    entry, after a logged error. *)
Lemma check_guarded_converts (E : Env) (url : PyStr) (st st' : St) (e : Exn) :
  check_one E url st = (Raise e, st') ->
  is_Exception e = true ->
  check_guarded E url st =
    (Ok tt, mkSt (trace st' ++ [EvLog ERROR (MsgCheckError url (exn_str e))])%list
                 (results st' ++ [(url, "- ERROR 404")])%list).
Proof.
  intros Hone He.
  cbv [check_guarded try_except bind ret log append emit].
  rewrite Hone, He. reflexivity.
Qed.

Lemma for_urls_trace (E : Env) (urls : list PyStr) :
  forall st, exists evs,
    trace (snd (for_urls E urls st)) = (trace st ++ evs)%list /\ quits evs = 0.
Proof.
  induction urls as [|url rest IH]; intros st; cbn [for_urls].
  - exists []. split; [symmetry; apply app_nil_r | reflexivity].
  - unfold bind.
    destruct (check_guarded_trace E url st) as (evs1 & Ht1 & Hq1).
    destruct (check_guarded E url st) as [[[]|e] st1]; cbn [snd] in *.
    + destruct (IH st1) as (evs2 & Ht2 & Hq2).
      exists (evs1 ++ evs2)%list. split.
      * rewrite Ht2, Ht1. symmetry. apply app_assoc.
      * rewrite quits_app, Hq1, Hq2. reflexivity.
    + exists evs1. auto.
Qed.

Lemma for_urls_raises (E : Env) (urls : list PyStr) :
  forall st e, fst (for_urls E urls st) = Raise e -> is_Exception e = false.
Proof.
  induction urls as [|url rest IH]; intros st e; cbn [for_urls].
  - discriminate.
  - unfold bind.
    pose proof (check_guarded_raises E url st) as Hr.
    destruct (check_guarded E url st) as [[[]|e1] st1]; cbn [fst] in *.
    + apply IH.
    + intros H. inversion H. subst. apply Hr. reflexivity.
Qed.

(** ** The browser session *)

(** C4, as stated, fails: an error while the browser session is created is
    raised to the caller, and no entry is produced for any URL. *)
Lemma session_creation_error_propagates :
  check_url_status Demo.env_no_browser [Some Demo.gone] Demo.st0 =
    (Raise (OtherException "Unable to obtain driver for chrome"), mkSt [] []) /\
  ~ never_raises Demo.env_no_browser [Some Demo.gone] Demo.st0.
Proof.
  split; [reflexivity|].
  intros [rs H]. discriminate H.
Qed.

(** C4, amended: an error during browser-session creation is raised to the
    caller, with nothing classified and nothing to tear down.  Once the
    session exists, every per-URL error that is an [Exception] is turned
    into an ERROR 404 entry, [driver.quit] is called exactly once, as the
    last effect, on every exit path, and the call raises only what is not
    an [Exception] or what [driver.quit] itself raised. *)
Theorem session_lifecycle (E : Env) (urls : list PyStr) (st : St) :
  (forall e,
      webdriver_Chrome E (trace st) = Raise e ->
      check_url_status E urls st = (Raise e, mkSt (trace st) [])) /\
  (webdriver_Chrome E (trace st) = Ok tt ->
   exists evs,
     trace (snd (check_url_status E urls st)) =
       (trace st ++ EvChromeStart :: evs ++ [EvDriverQuit])%list /\
     quits evs = 0 /\
     quits (EvChromeStart :: evs ++ [EvDriverQuit]) = 1 /\
     forall e, fst (check_url_status E urls st) = Raise e ->
               is_Exception e = false \/ exists h, driver_quit E h = Raise e) /\
  (forall url st1 st2 e,
      check_one E url st1 = (Raise e, st2) ->
      is_Exception e = true ->
      check_guarded E url st1 =
        (Ok tt,
         mkSt (trace st2 ++ [EvLog ERROR (MsgCheckError url (exn_str e))])%list
              (results st2 ++ [(url, "- ERROR 404")])%list)).
Proof.
  split; [|split].
  - intros e He.
    cbv [check_url_status bind new_chrome]. cbn [trace]. rewrite He. reflexivity.
  - intros Hstart.
    cbv [check_url_status bind new_chrome try_finally quit ret emit].
    cbn [trace results]. rewrite Hstart.
    pose proof (for_urls_trace E urls
                  (mkSt (trace st ++ [EvChromeStart])%list [])) as (evs & Ht & Hq).
    pose proof (for_urls_raises E urls
                  (mkSt (trace st ++ [EvChromeStart])%list [])) as Hr.
    destruct (for_urls E urls (mkSt (trace st ++ [EvChromeStart])%list []))
      as [r1 s1]. cbn [fst snd trace] in *.
    exists evs. split; [|split; [exact Hq|split]].
    + destruct (driver_quit E (trace s1)); destruct r1; cbn [snd trace];
        rewrite Ht, <- !app_assoc; reflexivity.
    + change (EvChromeStart :: evs ++ [EvDriverQuit])%list
        with ([EvChromeStart] ++ evs ++ [EvDriverQuit])%list.
      rewrite !quits_app, Hq. reflexivity.
    + intros e.
      destruct (driver_quit E (trace s1)) as [[]|eq] eqn:Hquit.
      * destruct r1 as [[]|e1]; cbn [fst]; [discriminate|].
        intros H. inversion H. subst. left. apply Hr. reflexivity.
      * destruct r1; cbn [fst]; intros H; inversion H; subst;
          right; exists (trace s1); exact Hquit.
  - intros url st1 st2 e. apply check_guarded_converts.
Qed.

(** ** The result list *)

(** As long as the debug snapshot can be written, a turn of the loop that
    completes has appended exactly one entry, for its URL. *)
Lemma check_guarded_one_entry (E : Env) (url : PyStr) (st : St) :
  (forall h name data, file_write E h name data = Ok tt) ->
  fst (check_guarded E url st) = Ok tt ->
  exists label,
    results (snd (check_guarded E url st)) = (results st ++ [(url, label)])%list /\
    is_label (url, label).
Proof.
  intros Hw. unfold is_label. cbn [snd].
  run_classifier.
  repeat (break_inner; cbn [fst snd trace results]);
    try discriminate;
    try match goal with
        | H : file_write _ _ _ _ = Raise _ |- _ => rewrite Hw in H; discriminate
        end;
    intros _; eexists; (split; [reflexivity | auto]).
Qed.

Lemma for_urls_entries (E : Env) (urls : list PyStr) :
  (forall h name data, file_write E h name data = Ok tt) ->
  forall st,
    fst (for_urls E urls st) = Ok tt ->
    exists rs,
      results (snd (for_urls E urls st)) = (results st ++ rs)%list /\
      map fst rs = urls /\ Forall is_label rs.
Proof.
  intros Hw. induction urls as [|url rest IH]; intros st; cbn [for_urls].
  - intros _. exists []. cbn. rewrite app_nil_r. auto.
  - unfold bind.
    pose proof (check_guarded_one_entry E url st Hw) as H1.
    destruct (check_guarded E url st) as [[[]|e] st1]; cbn [fst snd] in *;
      [|discriminate].
    destruct (H1 eq_refl) as (label & Hres & Hlabel).
    intros Hrest. destruct (IH st1 Hrest) as (rs & Hrs & Hmap & Hall).
    exists ((url, label) :: rs). split; [|split].
    + rewrite Hrs, Hres, <- app_assoc. reflexivity.
    + cbn. rewrite Hmap. reflexivity.
    + constructor; assumption.
Qed.

(** On a file system that accepts the debug snapshots, the list returned
    has one entry per input URL, in input order, each with the URL and one
    of the two labels. *)
Lemma check_url_status_shape (E : Env) (urls : list PyStr) (st : St) rs :
  (forall h name data, file_write E h name data = Ok tt) ->
  fst (check_url_status E urls st) = Ok rs ->
  map fst rs = urls /\ Forall is_label rs.
Proof.
  intros Hw.
  cbv [check_url_status bind new_chrome try_finally quit ret emit].
  cbn [trace results].
  destruct (webdriver_Chrome E (trace st)) as [[]|e]; [|discriminate].
  pose proof (for_urls_entries E urls Hw
                (mkSt (trace st ++ [EvChromeStart])%list [])) as Hloop.
  destruct (for_urls E urls (mkSt (trace st ++ [EvChromeStart])%list []))
    as [r1 s1]. cbn [fst snd results] in Hloop.
  destruct (driver_quit E (trace s1)) as [[]|eq]; [|discriminate].
  destruct r1 as [[]|e1]; cbn [fst results]; [|discriminate].
  intros H. inversion H. subst rs.
  destruct (Hloop eq_refl) as (rs & Hrs & Hmap & Hall).
  rewrite Hrs. cbn [app]. auto.
Qed.

(** C1 (the code departs from the claim): when the debug snapshot of a page
    cannot be written, here because the path of the URL makes the file name
    longer than the file system allows, the label for the page is already
    in the list and the handler of the loop appends a second entry for the
    same URL; one input URL yields two pairs. *)
Theorem failed_snapshot_adds_second_entry :
  fst (check_url_status Demo.env [Some Demo.long_page] Demo.st0) =
    Ok [(Some Demo.long_page, "- OK"); (Some Demo.long_page, "- ERROR 404")].
Proof. vm_compute. reflexivity. Qed.

(** ** The orchestrator *)

Lemma result_lines_app (a b : Trace) :
  result_lines (a ++ b)%list = (result_lines a ++ result_lines b)%list.
Proof. apply flat_map_app. Qed.

(** The validator's only effect is its one request. *)
Lemma validate_xml_effect (E : Env) (url : PyStr) (st : St) :
  snd (validate_xml E url st) =
    mkSt (trace st ++ [EvHttpGet url default_opts])%list (results st).
Proof.
  run_script. repeat (break_inner; cbn [fst snd trace results]); reflexivity.
Qed.

(** The downloader and the sampler log no classification and start no
    browser: each makes its one request, and the downloader may write its
    file. *)
Lemma download_sitemap_effect (E : Env) (url : PyStr) (st : St) :
  exists evs,
    trace (snd (download_sitemap E url st)) = (trace st ++ evs)%list /\
    result_lines evs = [] /\ navigations evs = [].
Proof.
  run_script.
  repeat (break_inner; cbn [fst snd trace results]);
    repeat rewrite <- app_assoc; cbn [app];
    eexists; (split; [reflexivity | split; reflexivity]).
Qed.

Lemma get_top_urls_effect (E : Env) (url : PyStr) (limit : Z) (st : St) :
  exists evs,
    trace (snd (get_top_urls E url limit st)) = (trace st ++ evs)%list /\
    result_lines evs = [] /\ navigations evs = [] /\ files_written evs = [].
Proof.
  run_script.
  repeat (break_inner; cbn [fst snd trace results]);
    repeat rewrite <- app_assoc; cbn [app];
    eexists; (split; [reflexivity | repeat split; reflexivity]).
Qed.

(** C9: a child sitemap that fails validation gets no download attempt (the
    validator's request is the only one made for it, no file is written)
    and no classification line; a child whose download fails, or that
    yields no URLs, is passed over without a classification line and
    without a browser navigation; in each case the turn ends normally and
    the loop goes on with the remaining children. *)
Theorem failed_children_are_skipped (E : Env) (sub : PyStr) (rest : list PyStr)
        (st : St) :
  let st0 := emit (EvLog INFO (MsgCheckingSub sub)) st in
  (forall message st1,
      validate_xml E sub st0 = (Ok (false, message), st1) ->
      let st' := emit (EvLog INFO (MsgSubValid false message)) st1 in
      check_subsitemap E sub st = (Ok tt, st') /\
      trace st' = (trace st ++ [EvLog INFO (MsgCheckingSub sub);
                                EvHttpGet sub default_opts;
                                EvLog INFO (MsgSubValid false message)])%list /\
      requests (trace st') = (requests (trace st) ++ [sub])%list /\
      files_written (trace st') = files_written (trace st) /\
      result_lines (trace st') = result_lines (trace st) /\
      for_subsitemaps E (sub :: rest) st = for_subsitemaps E rest st') /\
  (forall m1 st1 m2 st2,
      validate_xml E sub st0 = (Ok (true, m1), st1) ->
      download_sitemap E sub (emit (EvLog INFO (MsgSubValid true m1)) st1) =
        (Ok (false, m2), st2) ->
      let st' := emit (EvLog INFO (MsgDownload false m2)) st2 in
      check_subsitemap E sub st = (Ok tt, st') /\
      result_lines (trace st') = result_lines (trace st) /\
      navigations (trace st') = navigations (trace st) /\
      for_subsitemaps E (sub :: rest) st = for_subsitemaps E rest st') /\
  (forall m1 st1 m2 st2 st3,
      validate_xml E sub st0 = (Ok (true, m1), st1) ->
      download_sitemap E sub (emit (EvLog INFO (MsgSubValid true m1)) st1) =
        (Ok (true, m2), st2) ->
      get_top_urls E sub 10 (emit (EvLog INFO (MsgDownload true m2)) st2) =
        (Ok [], st3) ->
      let st' := emit (EvLog INFO (MsgNoUrls sub)) st3 in
      check_subsitemap E sub st = (Ok tt, st') /\
      result_lines (trace st') = result_lines (trace st) /\
      navigations (trace st') = navigations (trace st) /\
      for_subsitemaps E (sub :: rest) st = for_subsitemaps E rest st').
Proof.
  intros st0. subst st0. split; [|split].
  - intros message st1 Hval st'.
    assert (Hturn : check_subsitemap E sub st = (Ok tt, st')).
    { cbv [check_subsitemap bind log ret]. rewrite Hval. reflexivity. }
    pose proof (validate_xml_effect E sub (emit (EvLog INFO (MsgCheckingSub sub)) st))
      as Heff.
    rewrite Hval in Heff. cbn [snd] in Heff.
    assert (Htr : trace st' =
                  (trace st ++ [EvLog INFO (MsgCheckingSub sub);
                                EvHttpGet sub default_opts;
                                EvLog INFO (MsgSubValid false message)])%list).
    { subst st'. rewrite Heff. cbn [emit trace results].
      rewrite <- !app_assoc. reflexivity. }
    split; [exact Hturn|]. split; [exact Htr|].
    split; [|split; [|split]].
    + rewrite Htr. unfold requests. rewrite flat_map_app. reflexivity.
    + rewrite Htr, files_written_app. cbn. apply app_nil_r.
    + rewrite Htr, result_lines_app. cbn. apply app_nil_r.
    + cbn [for_subsitemaps]. unfold bind at 1. rewrite Hturn. reflexivity.
  - intros m1 st1 m2 st2 Hval Hdl st'.
    assert (Hturn : check_subsitemap E sub st = (Ok tt, st')).
    { cbv [check_subsitemap bind log ret]. rewrite Hval. cbn [negb].
      rewrite Hdl. reflexivity. }
    pose proof (validate_xml_effect E sub (emit (EvLog INFO (MsgCheckingSub sub)) st))
      as Heff.
    rewrite Hval in Heff. cbn [snd] in Heff.
    destruct (download_sitemap_effect E sub
                (emit (EvLog INFO (MsgSubValid true m1)) st1))
      as (evs & Hevs & Hlines & Hnav).
    rewrite Hdl in Hevs. cbn [snd] in Hevs.
    assert (Htr : trace st' =
                  (trace st ++ [EvLog INFO (MsgCheckingSub sub);
                                EvHttpGet sub default_opts;
                                EvLog INFO (MsgSubValid true m1)] ++ evs ++
                   [EvLog INFO (MsgDownload false m2)])%list).
    { subst st'. cbn [emit trace results]. rewrite Hevs, Heff.
      cbn [emit trace results]. rewrite <- !app_assoc. reflexivity. }
    split; [exact Hturn|]. split; [|split].
    + rewrite Htr, !result_lines_app, Hlines. cbn. apply app_nil_r.
    + rewrite Htr, !navigations_app, Hnav. cbn. apply app_nil_r.
    + cbn [for_subsitemaps]. unfold bind at 1. rewrite Hturn. reflexivity.
  - intros m1 st1 m2 st2 st3 Hval Hdl Htop st'.
    assert (Hturn : check_subsitemap E sub st = (Ok tt, st')).
    { cbv [check_subsitemap bind log ret]. rewrite Hval. cbn [negb].
      rewrite Hdl. cbn [negb]. rewrite Htop. reflexivity. }
    pose proof (validate_xml_effect E sub (emit (EvLog INFO (MsgCheckingSub sub)) st))
      as Heff.
    rewrite Hval in Heff. cbn [snd] in Heff.
    destruct (download_sitemap_effect E sub
                (emit (EvLog INFO (MsgSubValid true m1)) st1))
      as (evs & Hevs & Hlines & Hnav).
    rewrite Hdl in Hevs. cbn [snd] in Hevs.
    destruct (get_top_urls_effect E sub 10
                (emit (EvLog INFO (MsgDownload true m2)) st2))
      as (evs' & Hevs' & Hlines' & Hnav' & _).
    rewrite Htop in Hevs'. cbn [snd] in Hevs'.
    assert (Htr : trace st' =
                  (trace st ++ [EvLog INFO (MsgCheckingSub sub);
                                EvHttpGet sub default_opts;
                                EvLog INFO (MsgSubValid true m1)] ++ evs ++
                   [EvLog INFO (MsgDownload true m2)] ++ evs' ++
                   [EvLog INFO (MsgNoUrls sub)])%list).
    { subst st'. cbn [emit trace results]. rewrite Hevs'.
      cbn [emit trace results]. rewrite Hevs, Heff.
      cbn [emit trace results]. rewrite <- !app_assoc. reflexivity. }
    split; [exact Hturn|]. split; [|split].
    + rewrite Htr, !result_lines_app, Hlines, Hlines'. cbn. apply app_nil_r.
    + rewrite Htr, !navigations_app, Hnav, Hnav'. cbn. apply app_nil_r.
    + cbn [for_subsitemaps]. unfold bind at 1. rewrite Hturn. reflexivity.
Qed.

(** ** The theorems at work in the small world *)

Lemma validate_xml_contract_witness :
  fst (validate_xml Demo.env (Some Demo.child_a) Demo.st0) =
    Ok (false, "Invalid XML structure") /\
  fst (validate_xml Demo.env (Some Demo.child_b) Demo.st0) = Ok (true, "Valid XML") /\
  exists message,
    fst (validate_xml Demo.env (Some Demo.missing) Demo.st0) = Ok (false, message) /\
    contains "404" message = true.
Proof.
  split; [|split].
  - destruct (validate_xml_contract Demo.env (Some Demo.child_a) Demo.st0)
      as (_ & _ & H & _).
    eapply H; reflexivity.
  - destruct (validate_xml_contract Demo.env (Some Demo.child_b) Demo.st0)
      as (H & _).
    apply H. split; [reflexivity|].
    exists (mkResponse 200 "<urlset b/>" Demo.child_b), Demo.leaf_b.
    repeat split; reflexivity.
  - destruct (validate_xml_contract Demo.env (Some Demo.missing) Demo.st0)
      as (_ & H & _).
    apply (H (mkResponse 404 "" Demo.missing)); [reflexivity | discriminate].
Defined.

Lemma download_sitemap_contract_witness :
  download_sitemap Demo.env (Some Demo.child_b) Demo.st0 =
    (Ok (true, "Saved as b.xml"),
     mkSt [EvHttpGet (Some Demo.child_b) default_opts;
           EvFileWrite "b.xml" "<urlset b/>"] []) /\
  download_sitemap Demo.env (Some Demo.maps_dir) Demo.st0 =
    (Ok (false, "Invalid filename in URL"),
     mkSt [EvHttpGet (Some Demo.maps_dir) default_opts] []).
Proof.
  split.
  - destruct (download_sitemap_contract Demo.env (Some Demo.child_b) Demo.st0)
      as (H & _).
    apply (H (mkResponse 200 "<urlset b/>" Demo.child_b));
      [reflexivity | reflexivity | discriminate | reflexivity].
  - destruct (download_sitemap_contract Demo.env (Some Demo.maps_dir) Demo.st0)
      as (_ & H & _).
    apply (H (mkResponse 200 "<urlset b/>" Demo.maps_dir)); reflexivity.
Defined.

Lemma get_top_urls_truncates_witness :
  exists urls,
    fst (get_top_urls Demo.env (Some Demo.child_c) 2 Demo.st0) = Ok urls /\
    urls = [Some Demo.chair; None] /\
    length urls = 2.
Proof.
  destruct (get_top_urls_truncates Demo.env (Some Demo.child_c) 2 Demo.st0)
    as (H & _).
  destruct (H (mkResponse 200 "<urlset c/>" Demo.child_c) Demo.leaf_c
              eq_refl eq_refl eq_refl) as (urls & Hurls & Hpos & _).
  assert (HN : (0 <= 2)%Z) by lia.
  destruct (Hpos HN) as (Hfirst & Hlen).
  exists urls. split; [exact Hurls | split; [exact Hfirst | exact Hlen]].
Defined.

Lemma loc_entries_keep_none_witness :
  exists urls,
    fst (get_top_urls Demo.env (Some Demo.child_c) 10 Demo.st0) = Ok urls /\
    nth_error urls 1 = Some None.
Proof.
  destruct (loc_entries_keep_none Demo.env (Some Demo.child_c) 10 Demo.st0
              (mkResponse 200 "<urlset c/>" Demo.child_c) Demo.leaf_c
              eq_refl eq_refl eq_refl) as (_ & urls & Hurls & Hnth).
  exists urls. split; [exact Hurls|].
  apply (Hnth 1 (Demo.loc None)); [reflexivity | lia].
Defined.

Lemma fast_path_404_witness :
  check_one Demo.env (Some Demo.missing) Demo.st0 =
    (Ok FastPath404,
     mkSt [EvHttpGet (Some Demo.missing) check_opts]
          [(Some Demo.missing, "- ERROR 404")]).
Proof.
  apply (fast_path_404 Demo.env (Some Demo.missing) Demo.st0
           (mkResponse 404 "" Demo.missing) eq_refl eq_refl).
Defined.


Lemma session_lifecycle_witness :
  exists evs,
    trace (snd (check_url_status Demo.env [Some Demo.gone] Demo.st0)) =
      (EvChromeStart :: evs ++ [EvDriverQuit])%list /\
    quits evs = 0.
Proof.
  destruct (session_lifecycle Demo.env [Some Demo.gone] Demo.st0)
    as (_ & H & _).
  destruct (H eq_refl) as (evs & Htrace & Hq & _).
  exists evs. split; [exact Htrace | exact Hq].
Defined.

Lemma failed_children_are_skipped_witness :
  check_subsitemap Demo.env (Some Demo.child_a) Demo.st0 =
    (Ok tt,
     mkSt [EvLog INFO (MsgCheckingSub (Some Demo.child_a));
           EvHttpGet (Some Demo.child_a) default_opts;
           EvLog INFO (MsgSubValid false "Invalid XML structure")] []).
Proof.
  destruct (failed_children_are_skipped Demo.env (Some Demo.child_a)
              [Some Demo.child_b] Demo.st0) as (H & _).
  destruct (H "Invalid XML structure"
              (mkSt [EvLog INFO (MsgCheckingSub (Some Demo.child_a));
                     EvHttpGet (Some Demo.child_a) default_opts] [])
              eq_refl) as (Hturn & _).
  exact Hturn.
Defined.

(** The end-to-end scenario: two children, the first invalid XML, the second
    with one page that renders as "Page not found".  The run downloads the
    second child only and logs one classification line. *)
Example two_children_run :
  let tr := trace (snd (check_sitemap Demo.env (Some Demo.root) Demo.st0)) in
  result_lines tr = [(Some Demo.gone, "- ERROR 404")] /\
  map fst (files_written tr) = ["b.xml"; "debug__products_gone.html"] /\
  requests tr = [Some Demo.root; Some Demo.root; Some Demo.child_a;
                 Some Demo.child_b; Some Demo.child_b; Some Demo.child_b;
                 Some Demo.gone] /\
  quits tr = 1.
Proof. vm_compute. repeat split; reflexivity. Qed.

(** * Further properties of the script *)

(** ** More on the string helpers *)

Lemma prefix_iff (x h : string) :
  String.prefix x h = true <-> exists v, h = x ++ v.
Proof.
  revert h. induction x as [|c x IH]; intros h.
  - split; [intros _; exists h; reflexivity | destruct h; reflexivity].
  - destruct h as [|d h]; cbn;
      [split; [discriminate | intros [v Hv]; discriminate]|].
    destruct (ascii_dec c d) as [->|Hcd].
    + rewrite IH. split; intros [v Hv]; exists v; congruence.
    + split; [discriminate | intros [v Hv]; congruence].
Qed.

Lemma contains_iff (x h : string) :
  contains x h = true <-> exists u v, h = u ++ x ++ v.
Proof.
  induction h as [|d h IH]; cbn [contains].
  - rewrite orb_false_r, prefix_iff. split.
    + intros [v Hv]. exists "", v. exact Hv.
    + intros (u & v & Huv). destruct u; [exists v; exact Huv | discriminate].
  - rewrite orb_true_iff, prefix_iff, IH. split.
    + intros [[v Hv]|(u & v & Huv)].
      * exists "", v. exact Hv.
      * exists (String d u), v. cbn. congruence.
    + intros (u & v & Huv). destruct u as [|d' u]; cbn in Huv.
      * left. exists v. exact Huv.
      * right. exists u, v. congruence.
Qed.

Lemma append_assoc (a b c : string) : (a ++ b) ++ c = a ++ b ++ c.
Proof. induction a as [|x a IH]; cbn; [reflexivity | rewrite IH; reflexivity]. Qed.

Lemma contains_trans (x y h : string) :
  contains x y = true -> contains y h = true -> contains x h = true.
Proof.
  rewrite !contains_iff. intros (u & v & ->) (u' & v' & ->).
  exists (u' ++ u), (v ++ v'). rewrite !append_assoc. reflexivity.
Qed.

Lemma contains_slash_app (s t : string) :
  contains "/" (s ++ t) = contains "/" s || contains "/" t.
Proof.
  induction s as [|c s IH].
  - destruct t; reflexivity.
  - change (String c s ++ t) with (String c (s ++ t)).
    cbn [contains]. rewrite IH. cbn [String.prefix].
    assert (Hp : forall x, String.prefix "" x = true) by (intros []; reflexivity).
    destruct (ascii_dec "/" c); [rewrite !Hp; reflexivity|].
    rewrite orb_assoc. reflexivity.
Qed.

Lemma replace_slash_plain (s : string) :
  contains "/" (replace_char "/" "_" s) = false.
Proof.
  induction s as [|c s IH]; [reflexivity|].
  cbn [replace_char contains String.prefix]. rewrite IH.
  destruct (Ascii.eqb_spec c "/") as [->|Hc].
  - reflexivity.
  - destruct (ascii_dec "/" c) as [He|_]; [congruence | reflexivity].
Qed.

Lemma basename_plain (p : string) : contains "/" (basename p) = false.
Proof.
  induction p as [|c p IH]; [reflexivity|].
  cbn [basename].
  destruct (contains "/" (String c p)) eqn:Hc; [exact IH | exact Hc].
Qed.

Lemma snippet_file_plain (E : Env) (final_url : string) :
  plain_name (snippet_file E final_url).
Proof.
  split; [discriminate|].
  unfold snippet_file. rewrite !contains_slash_app, replace_slash_plain.
  reflexivity.
Qed.

(** ** What a run adds to the trace *)

Lemma check_guarded_events (E : Env) (url : PyStr) (st : St) :
  exists evs,
    trace (snd (check_guarded E url st)) = (trace st ++ evs)%list /\
    Forall loop_event evs.
Proof.
  pose proof (snippet_file_plain E) as Hname.
  run_classifier.
  repeat (break_inner; cbn [fst snd trace results]);
    repeat rewrite <- app_assoc; cbn [app];
    first [ eexists; split; [reflexivity | repeat constructor; apply Hname]
          | exists []; split; [symmetry; apply app_nil_r | constructor] ].
Qed.

Lemma for_urls_events (E : Env) (urls : list PyStr) :
  forall st, exists evs,
    trace (snd (for_urls E urls st)) = (trace st ++ evs)%list /\
    Forall loop_event evs.
Proof.
  induction urls as [|url rest IH]; intros st; cbn [for_urls].
  - exists []. split; [symmetry; apply app_nil_r | constructor].
  - unfold bind.
    destruct (check_guarded_events E url st) as (evs1 & Ht1 & Hq1).
    destruct (check_guarded E url st) as [[[]|e] st1]; cbn [snd] in *.
    + destruct (IH st1) as (evs2 & Ht2 & Hq2).
      exists (evs1 ++ evs2)%list. split.
      * rewrite Ht2, Ht1. symmetry. apply app_assoc.
      * apply Forall_app. auto.
    + exists evs1. auto.
Qed.

Lemma check_url_status_events (E : Env) (urls : list PyStr) :
  emits one_session (check_url_status E urls).
Proof.
  intros st.
  cbv [check_url_status bind new_chrome try_finally quit ret emit].
  cbn [trace results].
  destruct (webdriver_Chrome E (trace st)) as [[]|e].
  - destruct (for_urls_events E urls
                (mkSt (trace st ++ [EvChromeStart])%list [])) as (evs & Ht & Hq).
    destruct (for_urls E urls (mkSt (trace st ++ [EvChromeStart])%list []))
      as [r1 s1]. cbn [fst snd trace] in *.
    exists (EvChromeStart :: evs ++ [EvDriverQuit])%list. split.
    + destruct (driver_quit E (trace s1)); destruct r1; cbn [snd trace];
        rewrite Ht, <- !app_assoc; reflexivity.
    + right. exists evs. auto.
  - exists []. split; [symmetry; apply app_nil_r | left; reflexivity].
Qed.

Section Emits.

Variable Q : Trace -> Prop.
Hypothesis Q_nil : Q [].
Hypothesis Q_app : forall a b, Q a -> Q b -> Q (a ++ b)%list.

Lemma emits_ret {A} (a : A) : emits Q (ret a).
Proof. intros st. exists []. split; [symmetry; apply app_nil_r | exact Q_nil]. Qed.

Lemma emits_bind {A B} (m : M A) (f : A -> M B) :
  emits Q m -> (forall a, emits Q (f a)) -> emits Q (bind m f).
Proof.
  intros Hm Hf st. unfold bind. destruct (Hm st) as (e1 & H1 & Q1).
  destruct (m st) as [[a|e] st1]; cbn [snd] in *.
  - destruct (Hf a st1) as (e2 & H2 & Q2). exists (e1 ++ e2)%list. split.
    + rewrite H2, H1. symmetry. apply app_assoc.
    + apply Q_app; assumption.
  - exists e1. auto.
Qed.

Lemma emits_try_except {A} (body : M A) (handler : Exn -> option (M A)) :
  emits Q body -> (forall e h, handler e = Some h -> emits Q h) ->
  emits Q (try_except body handler).
Proof.
  intros Hb Hh st. unfold try_except. destruct (Hb st) as (e1 & H1 & Q1).
  destruct (body st) as [[a|e] st1]; cbn [snd] in *.
  - exists e1. auto.
  - destruct (handler e) as [h|] eqn:He.
    + destruct (Hh e h He st1) as (e2 & H2 & Q2). exists (e1 ++ e2)%list. split.
      * rewrite H2, H1. symmetry. apply app_assoc.
      * apply Q_app; assumption.
    + exists e1. auto.
Qed.

Lemma emits_log (lvl : Level) (msg : LogMsg) :
  Q [EvLog lvl msg] -> emits Q (log lvl msg).
Proof. intros H st. exists [EvLog lvl msg]. split; [reflexivity | exact H]. Qed.

Lemma emits_get (E : Env) (url : PyStr) (opts : ReqOpts) :
  Q [EvHttpGet url opts] -> emits Q (get E url opts).
Proof. intros H st. exists [EvHttpGet url opts]. split; [reflexivity | exact H]. Qed.

Lemma emits_fromstring (E : Env) (body : string) : emits Q (fromstring E body).
Proof. intros st. exists []. split; [symmetry; apply app_nil_r | exact Q_nil]. Qed.

Lemma emits_write_file (E : Env) (name data : string) :
  Q [EvFileWrite name data] -> emits Q (write_file E name data).
Proof.
  intros H st. unfold write_file.
  destruct (file_write E (trace st) name data).
  - exists [EvFileWrite name data]. split; [reflexivity | exact H].
  - exists []. split; [symmetry; apply app_nil_r | exact Q_nil].
Qed.

Hypothesis Q_get : forall url opts, Q [EvHttpGet url opts].
Hypothesis Q_log : forall lvl msg, Q [EvLog lvl msg].
Hypothesis Q_write : forall name data, plain_name name -> Q [EvFileWrite name data].
Hypothesis Q_session : forall evs, one_session evs -> Q evs.

Ltac emits_step :=
  first [ apply emits_ret
        | apply emits_log; apply Q_log
        | apply emits_get; apply Q_get
        | apply emits_fromstring
        | apply emits_bind; [|intros]
        | match goal with
          | |- emits _ (if ?b then _ else _) => destruct b
          | |- emits _ (match ?x with _ => _ end) => destruct x
          end ].

Ltac emits_handler :=
  let e := fresh "e" in let h := fresh "h" in let He := fresh "He" in
  intros e h He; destruct e; inversion He; subst; repeat emits_step.

Lemma emits_validate_xml (E : Env) (url : PyStr) : emits Q (validate_xml E url).
Proof.
  unfold validate_xml. apply emits_try_except; [repeat emits_step | emits_handler].
Qed.

Lemma emits_get_sitemap_urls (E : Env) (url : PyStr) :
  emits Q (get_sitemap_urls E url).
Proof.
  unfold get_sitemap_urls.
  apply emits_try_except; [repeat emits_step | emits_handler].
Qed.

Lemma emits_get_top_urls (E : Env) (url : PyStr) (limit : Z) :
  emits Q (get_top_urls E url limit).
Proof.
  unfold get_top_urls.
  apply emits_try_except; [repeat emits_step | emits_handler].
Qed.

Lemma emits_download_sitemap (E : Env) (url : PyStr) :
  emits Q (download_sitemap E url).
Proof.
  unfold download_sitemap. apply emits_try_except; [|emits_handler].
  apply emits_bind; [apply emits_get, Q_get | intros response].
  destruct (negb (status_code response =? 200)%Z); [apply emits_ret|].
  destruct (String.eqb_spec (basename (urlparse_path E url)) "") as [He|He];
    [apply emits_ret|].
  apply emits_bind; [|intros; apply emits_ret].
  apply emits_write_file, Q_write. split; [exact He | apply basename_plain].
Qed.

Lemma emits_check_url_status (E : Env) (urls : list PyStr) :
  emits Q (check_url_status E urls).
Proof.
  intros st. destruct (check_url_status_events E urls st) as (evs & Ht & Hs).
  exists evs. split; [exact Ht | apply Q_session, Hs].
Qed.

Lemma emits_log_results (rs : list (PyStr * string)) : emits Q (log_results rs).
Proof.
  induction rs as [|[url status] rs IH]; cbn [log_results];
    [apply emits_ret|].
  apply emits_bind; [apply emits_log, Q_log | intros; exact IH].
Qed.

Lemma emits_check_subsitemap (E : Env) (sub : PyStr) :
  emits Q (check_subsitemap E sub).
Proof.
  unfold check_subsitemap.
  apply emits_bind; [apply emits_log, Q_log | intros _].
  apply emits_bind; [apply emits_validate_xml | intros [is_valid message]].
  apply emits_bind; [apply emits_log, Q_log | intros _].
  destruct (negb is_valid); [apply emits_ret|].
  apply emits_bind; [apply emits_download_sitemap | intros [downloaded msg]].
  apply emits_bind; [apply emits_log, Q_log | intros _].
  destruct (negb downloaded); [apply emits_ret|].
  apply emits_bind; [apply emits_get_top_urls | intros urls].
  destruct urls as [|u us]; [apply emits_log, Q_log|].
  apply emits_bind; [apply emits_log, Q_log | intros _].
  apply emits_bind; [apply emits_check_url_status | intros rs].
  apply emits_log_results.
Qed.

Lemma emits_for_subsitemaps (E : Env) (subs : list PyStr) :
  emits Q (for_subsitemaps E subs).
Proof.
  induction subs as [|sub rest IH]; cbn [for_subsitemaps]; [apply emits_ret|].
  apply emits_bind; [apply emits_check_subsitemap | intros; exact IH].
Qed.

Lemma emits_check_sitemap (E : Env) (main_sitemap : PyStr) :
  emits Q (check_sitemap E main_sitemap).
Proof.
  unfold check_sitemap.
  apply emits_bind; [apply emits_log, Q_log | intros _].
  apply emits_bind; [apply emits_validate_xml | intros [is_valid message]].
  apply emits_bind; [apply emits_log, Q_log | intros _].
  destruct (negb is_valid); [apply emits_log, Q_log|].
  apply emits_bind; [apply emits_get_sitemap_urls | intros subs].
  destruct subs as [|s0 ss]; [apply emits_log, Q_log|].
  apply emits_for_subsitemaps.
Qed.

End Emits.

Lemma starts_app (a b : Trace) : starts (a ++ b)%list = starts a + starts b.
Proof. unfold starts. rewrite filter_app, length_app. reflexivity. Qed.

Lemma loop_events_observed (evs : Trace) :
  Forall loop_event evs ->
  starts evs = 0 /\ quits evs = 0 /\ result_lines evs = [] /\
  writes_plain_names evs.
Proof.
  unfold writes_plain_names.
  induction 1 as [|ev evs Hev _ (Hs & Hq & Hr & Hw)]; cbn.
  - repeat split; constructor.
  - destruct ev as [url opts|name data| |url| | |seconds| |lvl msg];
      cbn in *; try contradiction; try destruct msg; cbn in *;
      try contradiction; repeat split; auto; constructor; auto.
Qed.

Lemma one_session_observed (evs : Trace) :
  one_session evs ->
  starts evs = quits evs /\ result_lines evs = [] /\ writes_plain_names evs.
Proof.
  intros [->|(inner & -> & Hinner)].
  - repeat split; constructor.
  - destruct (loop_events_observed inner Hinner) as (Hs & Hq & Hr & Hw).
    change (EvChromeStart :: inner ++ [EvDriverQuit])%list
      with ([EvChromeStart] ++ inner ++ [EvDriverQuit])%list.
    unfold writes_plain_names in *.
    rewrite !starts_app, !quits_app, !result_lines_app, !files_written_app,
      Hs, Hq, Hr.
    cbn. rewrite app_nil_r. auto.
Qed.

(** X1: every file a run writes, sitemap download or debug snapshot, has a
    non-empty name without a slash, so all output stays in the working
    directory, whatever URLs the sitemaps contain. *)
Theorem run_writes_plain_names (E : Env) (main_sitemap : PyStr) (st : St) :
  exists evs,
    trace (snd (check_sitemap E main_sitemap st)) = (trace st ++ evs)%list /\
    Forall (fun file => fst file <> "" /\ contains "/" (fst file) = false)
           (files_written evs).
Proof.
  apply (emits_check_sitemap writes_plain_names).
  - constructor.
  - intros a b Ha Hb. unfold writes_plain_names in *.
    rewrite files_written_app. apply Forall_app. auto.
  - intros; constructor.
  - intros; constructor.
  - intros name data Hname. unfold writes_plain_names. cbn.
    constructor; [exact Hname | constructor].
  - intros evs Hs. apply one_session_observed, Hs.
Qed.

(** X2: in a run, as many browser sessions are quit as are created, on
    every path, also when the run ends by raising. *)
Theorem run_quits_every_session (E : Env) (main_sitemap : PyStr) (st : St) :
  exists evs,
    trace (snd (check_sitemap E main_sitemap st)) = (trace st ++ evs)%list /\
    starts evs = quits evs.
Proof.
  apply (emits_check_sitemap (fun evs => starts evs = quits evs)).
  - reflexivity.
  - intros a b Ha Hb. rewrite starts_app, quits_app, Ha, Hb. reflexivity.
  - reflexivity.
  - reflexivity.
  - reflexivity.
  - intros evs Hs. apply one_session_observed, Hs.
Qed.

(** ** The result list, without assumptions on the file system *)

Lemma check_guarded_groups (E : Env) (url : PyStr) (st : St) :
  fst (check_guarded E url st) = Ok tt ->
  exists group,
    results (snd (check_guarded E url st)) = (results st ++ group)%list /\
    entry_group url group.
Proof.
  unfold entry_group, is_label. run_classifier.
  repeat (break_inner; cbn [fst snd trace results]);
    try discriminate;
    intros _; rewrite <- ?app_assoc; cbn [app];
    (eexists; split; [reflexivity|]);
    (eexists; split; [|first [left; reflexivity | right; reflexivity]]);
    cbn [snd]; auto.
Qed.

Lemma for_urls_groups (E : Env) (urls : list PyStr) :
  forall st,
    fst (for_urls E urls st) = Ok tt ->
    exists groups,
      results (snd (for_urls E urls st)) = (results st ++ concat groups)%list /\
      Forall2 entry_group urls groups.
Proof.
  induction urls as [|url rest IH]; intros st; cbn [for_urls].
  - intros _. exists []. cbn. rewrite app_nil_r. auto.
  - unfold bind.
    pose proof (check_guarded_groups E url st) as H1.
    destruct (check_guarded E url st) as [[[]|e] st1]; cbn [fst snd] in *;
      [|discriminate].
    destruct (H1 eq_refl) as (group & Hres & Hgroup).
    intros Hrest. destruct (IH st1 Hrest) as (groups & Hrs & Hall).
    exists (group :: groups). split.
    + rewrite Hrs, Hres, <- app_assoc. reflexivity.
    + constructor; assumption.
Qed.

Lemma groups_length (urls : list PyStr) (groups : list (list (PyStr * string))) :
  Forall2 entry_group urls groups ->
  length urls <= length (concat groups) <= 2 * length urls.
Proof.
  induction 1 as [|url group urls groups (label & _ & [->| ->]) _ IH];
    cbn [concat length app]; lia.
Qed.

(** X3: whatever the file system does, a list returned by
    [check_url_status] is made of one group per input URL, in input order;
    a group is one entry for the URL, or two, the second being ERROR 404;
    every entry carries its URL and one of the two labels.  So [n] URLs
    give between [n] and [2n] entries. *)
Theorem check_url_status_groups (E : Env) (urls : list PyStr) (st : St)
        (rs : list (PyStr * string)) :
  fst (check_url_status E urls st) = Ok rs ->
  exists groups,
    rs = concat groups /\
    Forall2 entry_group urls groups /\
    length urls <= length rs <= 2 * length urls.
Proof.
  cbv [check_url_status bind new_chrome try_finally quit ret emit].
  cbn [trace results].
  destruct (webdriver_Chrome E (trace st)) as [[]|e]; [|discriminate].
  pose proof (for_urls_groups E urls
                (mkSt (trace st ++ [EvChromeStart])%list [])) as Hloop.
  destruct (for_urls E urls (mkSt (trace st ++ [EvChromeStart])%list []))
    as [r1 s1]. cbn [fst snd results] in Hloop.
  destruct (driver_quit E (trace s1)) as [[]|eq]; [|discriminate].
  destruct r1 as [[]|e1]; cbn [fst results]; [|discriminate].
  intros H. inversion H. subst rs.
  destruct (Hloop eq_refl) as (groups & Hrs & Hall).
  exists groups. rewrite Hrs. cbn [app].
  split; [reflexivity | split; [exact Hall | apply groups_length, Hall]].
Qed.

Lemma check_url_status_groups_witness :
  exists groups,
    [(Some Demo.long_page, "- OK"); (Some Demo.long_page, "- ERROR 404");
     (Some Demo.missing, "- ERROR 404")] = concat groups /\
    Forall2 entry_group [Some Demo.long_page; Some Demo.missing] groups.
Proof.
  destruct (check_url_status_groups Demo.env
              [Some Demo.long_page; Some Demo.missing] Demo.st0
              [(Some Demo.long_page, "- OK"); (Some Demo.long_page, "- ERROR 404");
               (Some Demo.missing, "- ERROR 404")])
    as (groups & Hrs & Hall & _).
  - vm_compute. reflexivity.
  - exists groups. split; [exact Hrs | exact Hall].
Defined.

(** ** When a page is classified OK *)

Ltac ok_page Hpage waits :=
  eexists; exists waits; eexists;
  unfold page_history, wait_events;
  repeat rewrite <- app_assoc in *; cbn [app] in *;
  (split; [reflexivity|]);
  (split; [apply Z.eqb_neq; eassumption|]);
  (split; [auto|]);
  (split; [eassumption|]);
  match goal with
  | Hmin : (_ || _)%bool = false, Hlooks : looks_404 _ _ _ _ = false |- _ =>
      destruct (Hpage _ Hmin Hlooks) as (? & ? & ?)
  end;
  repeat split; assumption.

(** X4: the entry (url, "- OK") is appended for a URL only if its plain
    fetch did not end in 404 and the page source that the browser gave for
    this URL, read after the navigation to it and the waits, has at least
    5000 characters, a non-empty title, and none of the 404 conditions on
    title, HTML, headings and blocks; this holds also for a turn that
    raises after the entry was appended.  In particular a page without a
    title is never OK. *)
Theorem ok_only_for_titled_long_pages (E : Env) (url : PyStr) (st : St) :
  results (snd (check_one E url st)) = (results st ++ [(url, "- OK")])%list ->
  exists response waits rendered,
    requests_get E (trace st) url check_opts = Ok response /\
    status_code response <> 404%Z /\
    wait_events waits /\
    driver_page_source E (page_history (trace st) url waits) = Ok rendered /\
    5000 <= String.length rendered /\
    (exists t, title_string (BeautifulSoup E rendered) = Some t /\ t <> "") /\
    ~ page_is_soft_404 (BeautifulSoup E rendered) rendered.
Proof.
  assert (Hpage : forall rendered,
             ((String.length rendered <? 5000)%nat
              || mem (lower (strip rendered)) ["loading..."; ""])%bool = false ->
             looks_404 (title_of (BeautifulSoup E rendered)) (lower rendered)
               (lowered_strings (h1_strings (BeautifulSoup E rendered)))
               (lowered_strings (div_strings (BeautifulSoup E rendered))) = false ->
             5000 <= String.length rendered /\
             (exists t, title_string (BeautifulSoup E rendered) = Some t /\ t <> "") /\
             ~ page_is_soft_404 (BeautifulSoup E rendered) rendered).
  { intros rendered Hmin Hlooks.
    apply orb_false_iff in Hmin. destruct Hmin as [Hsize _].
    apply Nat.ltb_ge in Hsize.
    assert (Hrule : ~ page_is_soft_404 (BeautifulSoup E rendered) rendered).
    { intros Hr. apply (looks_404_page_iff E rendered) in Hr. congruence. }
    split; [exact Hsize | split; [|exact Hrule]].
    unfold page_is_soft_404, page_title in Hrule.
    destruct (title_string (BeautifulSoup E rendered)) as [t|].
    - exists t. split; [reflexivity|]. intros ->. apply Hrule.
      left. cbn. auto.
    - exfalso. apply Hrule. left. cbn. auto. }
  run_classifier.
  repeat (break_inner; cbn [fst snd trace results]);
    intros H;
    try (apply app_inv_head in H; discriminate H);
    try (apply (f_equal (@length _)) in H; rewrite length_app in H;
         cbn in H; lia);
    clear H;
    first [ ok_page Hpage [EvWaitReady; EvWaitComplete]
          | ok_page Hpage [EvWaitReady; EvSleep 7]
          | ok_page Hpage [EvWaitReady; EvWaitComplete; EvSleep 7] ].
Qed.

Lemma ok_only_for_titled_long_pages_witness :
  exists rendered,
    driver_page_source Demo.env
      [EvHttpGet (Some Demo.long_page) check_opts;
       EvDriverGet (Some Demo.long_page); EvWaitReady; EvWaitComplete] =
      Ok rendered /\
    5000 <= String.length rendered /\
    exists t, title_string (BeautifulSoup Demo.env rendered) = Some t /\ t <> "".
Proof.
  destruct (ok_only_for_titled_long_pages Demo.env (Some Demo.long_page) Demo.st0)
    as (response & waits & rendered & _ & _ & Hwaits & Hsrc & Hsize & Htitle & _).
  - vm_compute. reflexivity.
  - exists Demo.chair_html. split; [reflexivity|].
    assert (Hr : rendered = Demo.chair_html).
    { unfold page_history in Hsrc. cbn in Hsrc. unfold Demo.source in Hsrc.
      destruct Hwaits as [-> | [-> | ->]]; vm_compute in Hsrc;
        inversion Hsrc; reflexivity. }
    subst rendered. split; [exact Hsize | exact Htitle].
Defined.

(** ** The sitemap helpers fail open *)





(** ** The indexer *)

(** X7: on a sitemap index that is fetched with status 200 and parses,
    [get_sitemap_urls] returns the text of every matched [<sitemap><loc>]
    element, all of them and in the order [findall] lists them, which is
    document order when no [sitemap] element lies inside another; on
    another status, a parse error or a request error it returns the empty
    list. *)
Theorem get_sitemap_urls_contract (E : Env) (url : PyStr) (st : St) :
  (forall response tree,
      requests_get E (trace st) url default_opts = Ok response ->
      status_code response = 200%Z ->
      ET_fromstring E (content response) = Ok tree ->
      fst (get_sitemap_urls E url st) =
        Ok (map ET.text
              (ET.findall_desc_child (ET.ns "sitemap") (ET.ns "loc") tree)) /\
      (forallb (ET.unnested (ET.ns "sitemap")) (ET.children tree) = true ->
       fst (get_sitemap_urls E url st) =
         Ok (map ET.text
               (ET.document_order (ET.ns "sitemap") (ET.ns "loc") tree)))) /\
  (forall response,
      requests_get E (trace st) url default_opts = Ok response ->
      status_code response <> 200%Z ->
      fst (get_sitemap_urls E url st) = Ok []) /\
  (forall response m,
      requests_get E (trace st) url default_opts = Ok response ->
      status_code response = 200%Z ->
      ET_fromstring E (content response) = Raise (ParseError m) ->
      fst (get_sitemap_urls E url st) = Ok []) /\
  (forall m,
      requests_get E (trace st) url default_opts = Raise (RequestException m) ->
      fst (get_sitemap_urls E url st) = Ok []).
Proof.
  split; [|split; [|split]].
  - intros response tree Hget H200 Hparse.
    assert (Hurls : fst (get_sitemap_urls E url st) =
                    Ok (map ET.text
                          (ET.findall_desc_child (ET.ns "sitemap") (ET.ns "loc")
                             tree))).
    { run_script. rewrite Hget, H200. cbn. rewrite Hparse. cbn.
      destruct (map ET.text _); reflexivity. }
    split; [exact Hurls|].
    intros Hflat. rewrite Hurls, (findall_document_order _ _ tree Hflat).
    reflexivity.
  - intros response Hget H200. run_script. rewrite Hget.
    destruct (Z.eqb_spec (status_code response) 200); [contradiction | reflexivity].
  - intros response m Hget H200 Hparse.
    run_script. rewrite Hget, H200. cbn. rewrite Hparse. reflexivity.
  - intros m Hget. run_script. rewrite Hget. reflexivity.
Qed.

Lemma get_sitemap_urls_contract_witness :
  fst (get_sitemap_urls Demo.env (Some Demo.root) Demo.st0) =
    Ok [Some Demo.child_a; Some Demo.child_b] /\
  fst (get_sitemap_urls Demo.env (Some Demo.missing) Demo.st0) = Ok [].
Proof.
  destruct (get_sitemap_urls_contract Demo.env (Some Demo.root) Demo.st0)
    as (Hok & _).
  destruct (get_sitemap_urls_contract Demo.env (Some Demo.missing) Demo.st0)
    as (_ & Hstatus & _).
  split.
  - apply (Hok (mkResponse 200 "<sitemapindex/>" Demo.root) Demo.index_tree);
      reflexivity.
  - apply (Hstatus (mkResponse 404 "" Demo.missing));
      [reflexivity | discriminate].
Defined.

(** ** The sampler's limit *)

Lemma firstn_prefix {A} (n : nat) (l : list A) :
  exists rest, l = (firstn n l ++ rest)%list.
Proof. exists (skipn n l). symmetry. apply firstn_skipn. Qed.

(** X8: whatever the limit, the list [get_top_urls] returns on a fetched
    and parsed sitemap is a prefix of the list of all matched entries; a
    negative limit [N] does not give an empty list but drops the last
    [|N|] entries, leaving [m - |N|] of [m]. *)
Theorem get_top_urls_prefix (E : Env) (url : PyStr) (limit : Z) (st : St)
        (response : Response) (tree : ET.Element) :
  requests_get E (trace st) url default_opts = Ok response ->
  status_code response = 200%Z ->
  ET_fromstring E (content response) = Ok tree ->
  let entries :=
    map ET.text (ET.findall_desc_child (ET.ns "url") (ET.ns "loc") tree) in
  exists urls rest,
    fst (get_top_urls E url limit st) = Ok urls /\
    entries = (urls ++ rest)%list /\
    ((limit < 0)%Z -> length urls = length entries - Z.to_nat (- limit)).
Proof.
  intros Hget H200 Hparse entries.
  destruct (firstn_prefix (Z.to_nat limit) entries) as [rest1 H1].
  destruct (firstn_prefix (length entries - Z.to_nat (- limit)) entries)
    as [rest2 H2].
  assert (Hrun : fst (get_top_urls E url limit st) = Ok (slice_to entries limit)).
  { run_script. rewrite Hget, H200. cbn. rewrite Hparse. reflexivity. }
  unfold slice_to in Hrun.
  destruct (Z.leb_spec 0 limit) as [Hpos|Hneg].
  - exists (firstn (Z.to_nat limit) entries), rest1.
    split; [exact Hrun | split; [exact H1 | lia]].
  - exists (firstn (length entries - Z.to_nat (- limit)) entries), rest2.
    split; [exact Hrun | split; [exact H2|]].
    intros _. rewrite length_firstn. lia.
Qed.

Lemma get_top_urls_prefix_witness :
  exists urls rest,
    fst (get_top_urls Demo.env (Some Demo.child_c) (-1) Demo.st0) = Ok urls /\
    [Some Demo.chair; None; Some Demo.gone] = (urls ++ rest)%list /\
    length urls = 2.
Proof.
  destruct (get_top_urls_prefix Demo.env (Some Demo.child_c) (-1) Demo.st0
              (mkResponse 200 "<urlset c/>" Demo.child_c) Demo.leaf_c
              eq_refl eq_refl eq_refl) as (urls & rest & Hrun & Hpre & Hlen).
  exists urls, rest. split; [exact Hrun | split; [exact Hpre|]].
  apply Hlen. lia.
Defined.

(** ** The phrase list *)

(** X9: three of the five soft-404 phrases do no work of their own: a
    text contains one of the five exactly when it contains "not found",
    "error 404" or the lost-page sentence, since "404 page not found" and
    "page not found" contain "not found". *)
Theorem soft_404_phrases_subsumed (text : string) :
  existsb (fun indicator => contains indicator text) soft_404_indicators =
  (contains "not found" text
   || contains "error 404" text
   || contains "sorry... we seem to have lost this page between our fabric rolls"
               text)%bool.
Proof.
  unfold soft_404_indicators. cbn [existsb].
  assert (H1 : contains "404 page not found" text = true ->
               contains "not found" text = true).
  { apply contains_trans. reflexivity. }
  assert (H2 : contains "page not found" text = true ->
               contains "not found" text = true).
  { apply contains_trans. reflexivity. }
  destruct (contains "404 page not found" text);
    destruct (contains "page not found" text);
    destruct (contains "not found" text);
    destruct (contains "error 404" text);
    destruct (contains "sorry... we seem to have lost this page between our fabric rolls" text);
    try reflexivity;
    first [ specialize (H1 eq_refl) | specialize (H2 eq_refl) ]; discriminate.
Qed.

(** ** Runs that complete *)












(** ** Runs that fail *)

(** X11: the classifier's errors are not all swallowed.  When the browser
    cannot be started for a child sitemap that was validated, downloaded
    and has URLs, the error leaves [check_url_status], the turn of the
    child and the loop over the children, so the remaining children are
    not processed; such an [Exception] leaving [check_sitemap] makes the
    [__main__] block log it and exit with status 1, while an interrupt
    gives status 0. *)
Theorem browser_failure_aborts_run (E : Env) (sub : PyStr) (rest : list PyStr)
        (st st1 st2 st3 : St) (m1 m2 : string) (u : PyStr) (us : list PyStr)
        (e : Exn) :
  validate_xml E sub (emit (EvLog INFO (MsgCheckingSub sub)) st) =
    (Ok (true, m1), st1) ->
  download_sitemap E sub (emit (EvLog INFO (MsgSubValid true m1)) st1) =
    (Ok (true, m2), st2) ->
  get_top_urls E sub 10 (emit (EvLog INFO (MsgDownload true m2)) st2) =
    (Ok (u :: us), st3) ->
  webdriver_Chrome E
    (trace st3 ++ [EvLog INFO (MsgCheckingTop (length (u :: us)) sub)])%list =
    Raise e ->
  let st' :=
    mkSt (trace st3 ++ [EvLog INFO (MsgCheckingTop (length (u :: us)) sub)])%list
         [] in
  check_subsitemap E sub st = (Raise e, st') /\
  for_subsitemaps E (sub :: rest) st = (Raise e, st') /\
  (forall s s',
      check_sitemap E (Some main_sitemap_url) s = (Raise e, s') ->
      main_block E s =
        (if is_Exception e then 1%Z else 0%Z,
         Some (if is_Exception e then MsgUnexpected (exn_str e) else MsgInterrupted),
         s')).
Proof.
  intros Hval Hdl Htop Hstart st'.
  assert (Hturn : check_subsitemap E sub st = (Raise e, st')).
  { cbv [check_subsitemap bind log ret]. rewrite Hval. cbn [negb].
    rewrite Hdl. cbn [negb]. rewrite Htop.
    cbv [check_url_status bind new_chrome emit]. cbn [trace results].
    rewrite Hstart. reflexivity. }
  split; [exact Hturn | split].
  - cbn [for_subsitemaps]. unfold bind. rewrite Hturn. reflexivity.
  - intros s s' Hrun. unfold main_block. rewrite Hrun.
    destruct e; reflexivity.
Qed.

Lemma browser_failure_aborts_run_witness :
  fst (main_block Acacia.env_no_browser Demo.st0) =
    (1%Z, Some (MsgUnexpected "Unable to obtain driver for chrome")) /\
  fst (for_subsitemaps Acacia.env_no_browser
         [Some Acacia.child; Some Acacia.child] Demo.st0) =
    Raise (OtherException "Unable to obtain driver for chrome").
Proof.
  pose (st1 := snd (validate_xml Acacia.env_no_browser (Some Acacia.child)
                      (emit (EvLog INFO (MsgCheckingSub (Some Acacia.child)))
                            Demo.st0))).
  pose (st2 := snd (download_sitemap Acacia.env_no_browser (Some Acacia.child)
                      (emit (EvLog INFO (MsgSubValid true "Valid XML")) st1))).
  pose (st3 := snd (get_top_urls Acacia.env_no_browser (Some Acacia.child) 10
                      (emit (EvLog INFO
                               (MsgDownload true "Saved as sitemap_products_1.xml"))
                            st2))).
  destruct (browser_failure_aborts_run Acacia.env_no_browser
              (Some Acacia.child) [Some Acacia.child] Demo.st0 st1 st2 st3
              "Valid XML" "Saved as sitemap_products_1.xml"
              (Some Acacia.page) []
              (OtherException "Unable to obtain driver for chrome")
              eq_refl eq_refl eq_refl eq_refl) as (_ & Hloop & Hmain).
  split.
  - rewrite (Hmain Demo.st0
               (snd (check_sitemap Acacia.env_no_browser
                       (Some main_sitemap_url) Demo.st0)));
      [reflexivity | vm_compute; reflexivity].
  - apply (f_equal fst) in Hloop. exact Hloop.
Defined.

(** ** What the orchestrator logs and when it stops *)

Lemma log_results_effect (rs : list (PyStr * string)) :
  forall st,
    fst (log_results rs st) = Ok tt /\
    result_lines (trace (snd (log_results rs st))) =
      (result_lines (trace st) ++ rs)%list.
Proof.
  induction rs as [|[url status] rs IH]; intros st; cbn [log_results].
  - cbn. rewrite app_nil_r. auto.
  - cbv [bind log]. destruct (IH (emit (EvLog INFO (MsgResult url status)) st))
      as (Hok & Hlines).
    split; [exact Hok|].
    rewrite Hlines. cbn [emit trace]. rewrite result_lines_app.
    cbn. rewrite <- app_assoc. reflexivity.
Qed.

(** X12: for a child sitemap that is validated and downloaded and has
    URLs, the classification lines logged are exactly the pairs that
    [check_url_status] returned, each once and in order; nothing else in
    the turn logs a classification line. *)
Theorem classifications_are_logged (E : Env) (sub : PyStr)
        (st st1 st2 st3 st4 : St) (m1 m2 : string) (u : PyStr) (us : list PyStr)
        (rs : list (PyStr * string)) :
  validate_xml E sub (emit (EvLog INFO (MsgCheckingSub sub)) st) =
    (Ok (true, m1), st1) ->
  download_sitemap E sub (emit (EvLog INFO (MsgSubValid true m1)) st1) =
    (Ok (true, m2), st2) ->
  get_top_urls E sub 10 (emit (EvLog INFO (MsgDownload true m2)) st2) =
    (Ok (u :: us), st3) ->
  check_url_status E (u :: us)
    (emit (EvLog INFO (MsgCheckingTop (length (u :: us)) sub)) st3) =
    (Ok rs, st4) ->
  fst (check_subsitemap E sub st) = Ok tt /\
  result_lines (trace (snd (check_subsitemap E sub st))) =
    (result_lines (trace st) ++ rs)%list.
Proof.
  intros Hval Hdl Htop Hcheck.
  destruct (log_results_effect rs st4) as (Hok & Hlines).
  assert (Hturn : check_subsitemap E sub st = log_results rs st4).
  { cbv [check_subsitemap bind log ret]. rewrite Hval. cbn [negb].
    rewrite Hdl. cbn [negb]. rewrite Htop, Hcheck. reflexivity. }
  rewrite Hturn. split; [exact Hok|]. rewrite Hlines. f_equal.
  pose proof (validate_xml_effect E sub (emit (EvLog INFO (MsgCheckingSub sub)) st))
    as Heff.
  rewrite Hval in Heff. cbn [snd] in Heff.
  destruct (download_sitemap_effect E sub
              (emit (EvLog INFO (MsgSubValid true m1)) st1))
    as (evs & Hevs & Hl & _).
  rewrite Hdl in Hevs. cbn [snd] in Hevs.
  destruct (get_top_urls_effect E sub 10
              (emit (EvLog INFO (MsgDownload true m2)) st2))
    as (evs' & Hevs' & Hl' & _).
  rewrite Htop in Hevs'. cbn [snd] in Hevs'.
  destruct (check_url_status_events E (u :: us)
              (emit (EvLog INFO (MsgCheckingTop (length (u :: us)) sub)) st3))
    as (evs'' & Hevs'' & Hs).
  rewrite Hcheck in Hevs''. cbn [snd] in Hevs''.
  destruct (one_session_observed evs'' Hs) as (_ & Hl'' & _).
  rewrite Hevs''. cbn [emit trace]. rewrite Hevs'. cbn [emit trace].
  rewrite Hevs, Heff. cbn [emit trace results].
  rewrite !result_lines_app, Hl, Hl', Hl''. cbn. rewrite !app_nil_r.
  reflexivity.
Qed.

Lemma classifications_are_logged_witness :
  result_lines (trace (snd (check_subsitemap Demo.env (Some Demo.child_b)
                              Demo.st0))) =
    [(Some Demo.gone, "- ERROR 404")].
Proof.
  pose (st1 := snd (validate_xml Demo.env (Some Demo.child_b)
                      (emit (EvLog INFO (MsgCheckingSub (Some Demo.child_b)))
                            Demo.st0))).
  pose (st2 := snd (download_sitemap Demo.env (Some Demo.child_b)
                      (emit (EvLog INFO (MsgSubValid true "Valid XML")) st1))).
  pose (st3 := snd (get_top_urls Demo.env (Some Demo.child_b) 10
                      (emit (EvLog INFO (MsgDownload true "Saved as b.xml")) st2))).
  pose (st4 := snd (check_url_status Demo.env [Some Demo.gone]
                      (emit (EvLog INFO
                               (MsgCheckingTop 1 (Some Demo.child_b))) st3))).
  refine (proj2 (classifications_are_logged Demo.env (Some Demo.child_b)
                   Demo.st0 st1 st2 st3 st4 "Valid XML" "Saved as b.xml"
                   (Some Demo.gone) [] [(Some Demo.gone, "- ERROR 404")]
                   _ _ _ _));
    vm_compute; reflexivity.
Defined.

Lemma get_sitemap_urls_effect (E : Env) (url : PyStr) (st : St) :
  exists logs,
    trace (snd (get_sitemap_urls E url st)) =
      (trace st ++ EvHttpGet url default_opts :: logs)%list /\
    requests logs = [] /\ files_written logs = [] /\ starts logs = 0.
Proof.
  run_script.
  repeat (break_inner; cbn [fst snd trace results]);
    repeat rewrite <- app_assoc; cbn [app];
    eexists; (split; [reflexivity | repeat split; reflexivity]).
Qed.

(** X13: [check_sitemap] stops before any child is looked at when the main
    sitemap is not valid (its effects are then the validator's one request
    and three log lines) and when the index lists no child (the main
    sitemap is then requested exactly twice, nothing is written and no
    browser is started); in both cases it returns normally. *)
Theorem check_sitemap_stops_early (E : Env) (main_sitemap : PyStr) (st : St) :
  let st0 := emit (EvLog INFO (MsgCheckingMain main_sitemap)) st in
  (forall message st1,
      validate_xml E main_sitemap st0 = (Ok (false, message), st1) ->
      check_sitemap E main_sitemap st =
        (Ok tt,
         mkSt (trace st ++ [EvLog INFO (MsgCheckingMain main_sitemap);
                            EvHttpGet main_sitemap default_opts;
                            EvLog INFO (MsgMainValid false message);
                            EvLog ERROR MsgMainInvalid])%list
              (results st))) /\
  (forall m1 st1 st2,
      validate_xml E main_sitemap st0 = (Ok (true, m1), st1) ->
      get_sitemap_urls E main_sitemap (emit (EvLog INFO (MsgMainValid true m1)) st1) =
        (Ok [], st2) ->
      let st' := emit (EvLog INFO MsgNoSubsitemaps) st2 in
      check_sitemap E main_sitemap st = (Ok tt, st') /\
      requests (trace st') = (requests (trace st) ++ [main_sitemap; main_sitemap])%list /\
      files_written (trace st') = files_written (trace st) /\
      starts (trace st') = starts (trace st)).
Proof.
  intros st0. subst st0. split.
  - intros message st1 Hval.
    pose proof (validate_xml_effect E main_sitemap
                  (emit (EvLog INFO (MsgCheckingMain main_sitemap)) st)) as Heff.
    rewrite Hval in Heff. cbn [snd] in Heff. subst st1.
    cbv [check_sitemap bind log ret]. rewrite Hval.
    cbv [emit]. cbn [negb trace results].
    rewrite <- !app_assoc. reflexivity.
  - intros m1 st1 st2 Hval Hidx st'.
    assert (Hrun : check_sitemap E main_sitemap st = (Ok tt, st')).
    { cbv [check_sitemap bind log ret]. rewrite Hval. cbn [negb].
      rewrite Hidx. reflexivity. }
    split; [exact Hrun|].
    pose proof (validate_xml_effect E main_sitemap
                  (emit (EvLog INFO (MsgCheckingMain main_sitemap)) st)) as Heff.
    rewrite Hval in Heff. cbn [snd] in Heff.
    destruct (get_sitemap_urls_effect E main_sitemap
                (emit (EvLog INFO (MsgMainValid true m1)) st1))
      as (logs & Hlogs & Hr & Hw & Hs).
    rewrite Hidx in Hlogs. cbn [snd] in Hlogs.
    assert (Htr : trace st' =
                  (trace st ++ [EvLog INFO (MsgCheckingMain main_sitemap);
                                EvHttpGet main_sitemap default_opts;
                                EvLog INFO (MsgMainValid true m1);
                                EvHttpGet main_sitemap default_opts] ++ logs ++
                   [EvLog INFO MsgNoSubsitemaps])%list).
    { subst st'. cbn [emit trace results]. rewrite Hlogs, Heff.
      cbn [emit trace results]. rewrite <- !app_assoc. reflexivity. }
    rewrite Htr. unfold requests in *.
    rewrite !files_written_app, !starts_app, !flat_map_app, Hr, Hw, Hs.
    cbn. rewrite !app_nil_r. repeat split; lia.
Qed.

Lemma check_sitemap_stops_early_witness :
  check_sitemap Demo.env (Some Demo.child_a) Demo.st0 =
    (Ok tt,
     mkSt [EvLog INFO (MsgCheckingMain (Some Demo.child_a));
           EvHttpGet (Some Demo.child_a) default_opts;
           EvLog INFO (MsgMainValid false "Invalid XML structure");
           EvLog ERROR MsgMainInvalid] []).
Proof.
  destruct (check_sitemap_stops_early Demo.env (Some Demo.child_a) Demo.st0)
    as (H & _).
  apply (H "Invalid XML structure"
           (mkSt [EvLog INFO (MsgCheckingMain (Some Demo.child_a));
                  EvHttpGet (Some Demo.child_a) default_opts] [])).
  reflexivity.
Defined.

(** ** What the classifier asks of the network and the browser *)

Lemma requests_app (a b : Trace) :
  requests (a ++ b)%list = (requests a ++ requests b)%list.
Proof. apply flat_map_app. Qed.

Lemma check_guarded_asks (E : Env) (url : PyStr) (st : St) :
  exists evs,
    trace (snd (check_guarded E url st)) = (trace st ++ evs)%list /\
    requests evs = [url] /\
    (navigations evs = [] \/ navigations evs = [url]).
Proof.
  run_classifier.
  repeat (break_inner; cbn [fst snd trace results]);
    repeat rewrite <- app_assoc; cbn [app];
    eexists; (split; [reflexivity | split; [reflexivity|]]);
    cbn; auto.
Qed.

Lemma for_urls_asks (E : Env) (urls : list PyStr) :
  forall st,
    fst (for_urls E urls st) = Ok tt ->
    exists evs,
      trace (snd (for_urls E urls st)) = (trace st ++ evs)%list /\
      requests evs = urls /\
      subsequence (navigations evs) urls.
Proof.
  induction urls as [|url rest IH]; intros st; cbn [for_urls].
  - intros _. exists []. cbn. rewrite app_nil_r. repeat split; constructor.
  - unfold bind.
    destruct (check_guarded_asks E url st) as (evs1 & Ht1 & Hr1 & Hn1).
    destruct (check_guarded E url st) as [[[]|e] st1]; cbn [fst snd] in *;
      [|discriminate].
    intros Hrest. destruct (IH st1 Hrest) as (evs2 & Ht2 & Hr2 & Hsub).
    exists (evs1 ++ evs2)%list. split; [|split].
    + rewrite Ht2, Ht1. symmetry. apply app_assoc.
    + rewrite requests_app, Hr1, Hr2. reflexivity.
    + rewrite navigations_app.
      destruct Hn1 as [-> | ->]; cbn [app]; constructor; exact Hsub.
Qed.

(** X14: a call of [check_url_status] that returns has made exactly one
    HTTP request per input URL, to that URL and in input order; its
    browser navigations are the input list with some URLs left out, so the
    browser goes to input URLs only, in input order, and at most once for
    each position of the list. *)
Theorem check_url_status_asks (E : Env) (urls : list PyStr) (st : St)
        (rs : list (PyStr * string)) :
  fst (check_url_status E urls st) = Ok rs ->
  exists evs,
    trace (snd (check_url_status E urls st)) = (trace st ++ evs)%list /\
    requests evs = urls /\
    subsequence (navigations evs) urls.
Proof.
  cbv [check_url_status bind new_chrome try_finally quit ret emit].
  cbn [trace results].
  destruct (webdriver_Chrome E (trace st)) as [[]|e]; [|discriminate].
  pose proof (for_urls_asks E urls
                (mkSt (trace st ++ [EvChromeStart])%list [])) as Hloop.
  destruct (for_urls E urls (mkSt (trace st ++ [EvChromeStart])%list []))
    as [r1 s1]. cbn [fst snd trace] in Hloop.
  destruct (driver_quit E (trace s1)) as [[]|eq]; [|discriminate].
  destruct r1 as [[]|e1]; cbn [fst snd trace]; [|discriminate].
  intros _. destruct (Hloop eq_refl) as (evs & Ht & Hr & Hsub).
  exists (EvChromeStart :: evs ++ [EvDriverQuit])%list.
  split; [rewrite Ht, <- !app_assoc; reflexivity|].
  change (EvChromeStart :: evs ++ [EvDriverQuit])%list
    with ([EvChromeStart] ++ evs ++ [EvDriverQuit])%list.
  rewrite !requests_app, !navigations_app. cbn. rewrite !app_nil_r.
  auto.
Qed.

Lemma check_url_status_asks_witness :
  exists evs,
    trace (snd (check_url_status Demo.env
                  [Some Demo.missing; Some Demo.chair] Demo.st0)) = evs /\
    requests evs = [Some Demo.missing; Some Demo.chair] /\
    subsequence (navigations evs) [Some Demo.missing; Some Demo.chair].
Proof.
  destruct (check_url_status_asks Demo.env
              [Some Demo.missing; Some Demo.chair] Demo.st0
              [(Some Demo.missing, "- ERROR 404"); (Some Demo.chair, "- OK")])
    as (evs & Ht & Hr & Hsub).
  - vm_compute. reflexivity.
  - exists evs. split; [exact Ht | split; [exact Hr | exact Hsub]].
Defined.

(** ** The name of a downloaded sitemap *)

Lemma basename_no_slash (p : string) : contains "/" p = false -> basename p = p.
Proof. intros H. destruct p; [reflexivity|]. cbn [basename]. rewrite H. reflexivity. Qed.

Lemma contains_slash_head (s : string) : contains "/" (String "/" s) = true.
Proof. apply prefix_contains. destruct s; reflexivity. Qed.

Lemma basename_last_segment (dir name : string) :
  contains "/" name = false -> basename (dir ++ "/" ++ name) = name.
Proof.
  intros Hname. induction dir as [|c dir IH].
  - change ("" ++ "/" ++ name) with (String "/" name).
    cbn [basename]. rewrite contains_slash_head.
    apply basename_no_slash, Hname.
  - change (String c dir ++ "/" ++ name) with (String c (dir ++ "/" ++ name)).
    cbn [basename].
    change (String c (dir ++ "/" ++ name)) with (String c dir ++ String "/" name).
    rewrite (contains_app_left "/" (String c dir) (String "/" name)
               (contains_slash_head name)).
    exact IH.
Qed.

(** X15: when the path of the URL is [dir/name], with a non-empty [name]
    that has no slash, a download with status 200 writes the response body
    to the file [name], the last segment of the path whatever [dir] is, and
    reports "Saved as name". *)
Theorem download_names_last_segment (E : Env) (url : PyStr) (st : St)
        (dir name : string) (response : Response) :
  urlparse_path E url = dir ++ "/" ++ name ->
  name <> "" ->
  contains "/" name = false ->
  requests_get E (trace st) url default_opts = Ok response ->
  status_code response = 200%Z ->
  file_write E (trace st ++ [EvHttpGet url default_opts])%list name
             (content response) = Ok tt ->
  download_sitemap E url st =
    (Ok (true, "Saved as " ++ name),
     mkSt (trace st ++ [EvHttpGet url default_opts;
                        EvFileWrite name (content response)])%list
          (results st)).
Proof.
  intros Hpath Hne Hplain Hget H200 Hwrite.
  run_script. rewrite Hget, H200, Hpath, (basename_last_segment dir name Hplain).
  cbn. destruct (String.eqb_spec name "") as [He|_]; [contradiction|].
  cbn. rewrite Hwrite, <- app_assoc. reflexivity.
Qed.

Lemma download_names_last_segment_witness :
  download_sitemap Demo.env (Some Demo.child_b) Demo.st0 =
    (Ok (true, "Saved as b.xml"),
     mkSt [EvHttpGet (Some Demo.child_b) default_opts;
           EvFileWrite "b.xml" "<urlset b/>"] []).
Proof.
  apply (download_names_last_segment Demo.env (Some Demo.child_b) Demo.st0
           "/maps" "b.xml" (mkResponse 200 "<urlset b/>" Demo.child_b));
    solve [reflexivity | discriminate].
Defined.
